(** * Film data-warehouse ETL (etl_film_datawarehouse.py): a shallow embedding

    Cells of the pandas frame are modelled as [pyval]; the parts of
    Python and pandas that turn strings into numbers or dates are kept
    abstract in the class [PyConv].  Timestamps are pandas' int64
    nanoseconds since 1970-01-01.  The PostgreSQL warehouse is a map per
    table from primary key to stored tuple; a psycopg2 connection has a
    committed store and a pending (uncommitted) store. *)

From Stdlib Require Import QArith ZArith String List Bool Lia.
From stdpp Require Import base gmap list pretty.

Import ListNotations.
Open Scope Z_scope.


(** ** Cell values *)

Inductive pyval :=
| PNone
| PNaN
| PInt (z : Z)
| PFloat (q : Q)
| PStr (s : string)
| PTimestamp (t : Z).

(** [pd.isna] on a scalar cell. *)
Definition pd_isna (v : pyval) : bool :=
  match v with PNone | PNaN => true | _ => false end.

Definition pd_notna (v : pyval) : bool := negb (pd_isna v).

(** String conversions of the Python runtime and pandas, not modelled in
    detail: [None] stands for the raised exception (or NaT). *)
Class PyConv := {
  py_float_of_str : string -> option Q;     (* float(s) *)
  py_int_of_str : string -> option Z;       (* int(s) *)
  py_str : pyval -> string;                 (* str(v) *)
  pd_to_datetime_str : string -> option Z;  (* pd.to_datetime(s) *)
  timedelta_days_float : Q -> option Z      (* pd.Timedelta(days=q), in ns *)
}.

Section Helpers.
Context `{PyConv}.

(** Python [float(v)]. *)
Definition py_float (v : pyval) : option Q :=
  match v with
  | PInt z => Some (inject_Z z)
  | PFloat q => Some q
  | PStr s => py_float_of_str s
  | _ => None
  end.

(** Python [int(v)]: truncation toward zero on floats; NaN, None and
    Timestamps raise. *)
Definition py_int (v : pyval) : option Z :=
  match v with
  | PInt z => Some z
  | PFloat q => Some (Z.quot (Qnum q) (Zpos (Qden q)))
  | PStr s => py_int_of_str s
  | _ => None
  end.

(** Python [value == ''] and [value == 0]. *)
Definition py_eq_empty (v : pyval) : bool :=
  match v with PStr s => String.eqb s ""%string | _ => false end.

Definition py_eq_zero (v : pyval) : bool :=
  match v with
  | PInt z => Z.eqb z 0
  | PFloat q => Qeq_bool q 0
  | _ => false
  end.

End Helpers.

(** ** clean_numeric (lines 38-44) *)

Definition clean_numeric `{PyConv} (value : pyval) : option Q :=
  if pd_isna value || py_eq_empty value || py_eq_zero value then None
  else py_float value.

(** ** parse_excel_date (lines 46-61) *)

Definition int64_min : Z := - 2 ^ 63.
Definition int64_max : Z := 2 ^ 63 - 1.

(** pandas reserves int64 min for NaT: valid nanosecond values are the
    others. *)
Definition ns_in_range (n : Z) : bool := (int64_min <? n) && (n <=? int64_max).

Definition ns_per_day : Z := 86400 * 10 ^ 9.

(** [pd.Timestamp('1899-12-30')]: 25569 days before 1970-01-01. *)
Definition excel_epoch : Z := - 25569 * ns_per_day.

(** [pd.Timedelta(days=d)] for an integer d. *)
Definition timedelta_days_int (d : Z) : option Z :=
  let n := d * ns_per_day in if ns_in_range n then Some n else None.

(** Timestamp + Timedelta, raising when the sum leaves the range. *)
Definition ts_add (t td : Z) : option Z :=
  let n := t + td in if ns_in_range n then Some n else None.

Definition parse_excel_date `{PyConv} (date_value : pyval) : option Z :=
  if pd_isna date_value then None
  else match date_value with
       | PTimestamp t => Some t
       | PInt d => match timedelta_days_int d with
                   | Some td => ts_add excel_epoch td
                   | None => None
                   end
       | PFloat q => match timedelta_days_float q with
                     | Some td => ts_add excel_epoch td
                     | None => None
                     end
       | PStr s => pd_to_datetime_str s
       | _ => None
       end.

(** The parsed date put back in a cell: None becomes NaT, which is null. *)
Definition date_cell (d : option Z) : pyval :=
  match d with Some t => PTimestamp t | None => PNone end.

(** ** Calendar fields of a timestamp (extract_time_components, lines 63-71) *)

(** Proleptic Gregorian (year, month) of a day count since 1970-01-01. *)
Definition civil_from_days (days : Z) : Z * Z :=
  let z := days + 719468 in
  let era := z / 146097 in
  let doe := z - era * 146097 in
  let yoe := (doe - doe / 1460 + doe / 36524 - doe / 146096) / 365 in
  let doy := doe - (365 * yoe + yoe / 4 - yoe / 100) in
  let mp := (5 * doy + 2) / 153 in
  let m := if mp <? 10 then mp + 3 else mp - 9 in
  let y := yoe + era * 400 in
  ((if m <=? 2 then y + 1 else y), m).

Definition month_names : list string :=
  ["January"; "February"; "March"; "April"; "May"; "June"; "July";
   "August"; "September"; "October"; "November"; "December"]%string.

(** [date.strftime('%B')] in the C locale. *)
Definition month_name (m : Z) : string :=
  nth (Z.to_nat (m - 1)) month_names ""%string.

Definition extract_time_components (date : option Z)
  : option Z * option Z * option Z * option string :=
  match date with
  | None => (None, None, None, None)
  | Some t =>
      let '(year, month) := civil_from_days (t / ns_per_day) in
      let quarter := (month - 1) / 3 + 1 in
      (Some year, Some quarter, Some month, Some (month_name month))
  end.

(** ** Rows of the frame *)

(** A row as read from the source sheet. *)
Record film_row := {
  FilmID : pyval;
  Title : pyval;
  Certificate : pyval;
  CertificateID : pyval;  (* a missing column reads as NaN *)
  Review : pyval;
  ReleaseDate : pyval;
  BudgetDollars : pyval;
  BoxOfficeDollars : pyval;
  RunTimeMinutes : pyval;
  OscarNominations : pyval;
  OscarWins : pyval;
  DirectorID : pyval;
  StudioID : pyval;
  GenreID : pyval;
  CountryID : pyval;
  LanguageID : pyval
}.

(** A row of [df_clean]: the source columns plus the derived ones. *)
Record clean_row := {
  raw : film_row;
  ReleaseDate_Parsed : option Z;
  BudgetDollars_Clean : option Q;
  BoxOfficeDollars_Clean : option Q;
  ProfitDollars : option Q;
  ROI : option Q;
  Year : option Z;
  Quarter : option Z;
  Month : option Z;
  MonthName : option string
}.

(** Elementwise Series arithmetic: NaN when an operand is NaN. *)
Definition series_op (f : Q -> Q -> Q) (a b : option Q) : option Q :=
  match a, b with Some x, Some y => Some (f x y) | _, _ => None end.

(** [Series > 0]: a missing value compares False. *)
Definition series_gt0 (a : option Q) : bool :=
  match a with Some x => negb (Qle_bool x 0) | None => false end.

(** transform_data (lines 97-136), row by row. *)
Definition transform_row `{PyConv} (r : film_row) : clean_row :=
  let parsed := parse_excel_date (ReleaseDate r) in
  let budget := clean_numeric (BudgetDollars r) in
  let box := clean_numeric (BoxOfficeDollars r) in
  let profit := series_op Qminus box budget in
  let roi := if series_gt0 budget
             then series_op Qdiv (series_op Qminus box budget) budget
             else None in
  let '(y, q, m, mn) := extract_time_components parsed in
  {| raw := r; ReleaseDate_Parsed := parsed;
     BudgetDollars_Clean := budget; BoxOfficeDollars_Clean := box;
     ProfitDollars := profit; ROI := roi;
     Year := y; Quarter := q; Month := m; MonthName := mn |}.

Definition transform_data `{PyConv} (df : list film_row) : list clean_row :=
  map transform_row df.

(** ** The warehouse and the psycopg2 connection *)

Inductive table :=
| DimTime | DimFilm | DimDirector | DimStudio | DimGenre | DimCountry
| DimLanguage | FactFilmPerformance.

#[global] Instance table_eq_dec : EqDecision table.
Proof. solve_decision. Defined.

(** Statement parameters as psycopg2 adapts them: None is NULL, a float
    NaN is the float 'NaN'. *)
Inductive sqlval :=
| SNull
| SNaN
| SInt (z : Z)
| SNum (q : Q)
| SText (s : string)
| STs (t : Z).

Definition tuple := list sqlval.

(** Every table maps its primary key to the stored row. *)
Definition store := table -> gmap Z tuple.

Definition empty_store : store := fun _ => ∅.

Definition store_insert (s : store) (tb : table) (k : Z) (tu : tuple) : store :=
  fun tb' => if decide (tb = tb') then <[k:=tu]> (s tb') else s tb'.

(** The pre-created schema: row checks done before the conflict test
    (NOT NULL, CHECK, type and range), and the foreign keys of the fact
    table, checked only when a row is really inserted. *)
Class Schema := {
  rejects : table -> tuple -> bool;
  fact_fk_ok : store -> tuple -> bool
}.

Definition fk_ok `{Schema} (s : store) (tb : table) (tu : tuple) : bool :=
  match tb with FactFilmPerformance => fact_fk_ok s tu | _ => true end.

(** [INSERT INTO tb ... VALUES tu ON CONFLICT (key) DO NOTHING]. *)
Record stmt := { st_table : table; st_key : Z; st_row : tuple }.

(** [cursor.execute]: the new store and [cursor.rowcount], or the
    database error. *)
Definition execute `{Schema} (s : store) (st : stmt) : option (store * Z) :=
  let '{| st_table := tb; st_key := k; st_row := tu |} := st in
  if rejects tb tu then None
  else match s tb !! k with
       | Some _ => Some (s, 0)
       | None => if fk_ok s tb tu then Some (store_insert s tb k tu, 1) else None
       end.

(** A connection outside autocommit: statements act on [pending]; commit
    publishes it, rollback discards everything since the last commit. *)
Record conn := { committed : store; pending : store }.

Definition commit (c : conn) : conn := {| committed := pending c; pending := pending c |}.
Definition rollback (c : conn) : conn := {| committed := committed c; pending := committed c |}.

Definition connect (s : store) : conn := {| committed := s; pending := s |}.

(** Build the parameters in Python (None: a Python exception such as
    [int(nan)]) and execute. *)
Definition run_stmt `{Schema} (c : conn) (st : option stmt) : option (conn * Z) :=
  match st with
  | None => None
  | Some st =>
      match execute (pending c) st with
      | Some (s', n) => Some ({| committed := committed c; pending := s' |}, n)
      | None => None
      end
  end.

(** ** Loader loops *)

(** The dimension loaders: commit after every row, rollback on error. *)
Fixpoint dim_loop `{Schema} {A} (stmt_of : A -> option stmt) (rows : list A)
    (c : conn) (inserted errors : Z) : conn * Z * Z :=
  match rows with
  | [] => (c, inserted, errors)
  | r :: rs =>
      match run_stmt c (stmt_of r) with
      | Some (c', n) => dim_loop stmt_of rs (commit c') (inserted + n) errors
      | None => dim_loop stmt_of rs (rollback c) inserted (errors + 1)
      end
  end.

(** The fact loader's loop (lines 261-293): no commit inside, rollback
    on error. *)
Fixpoint fact_loop `{Schema} {A} (stmt_of : A -> option stmt) (rows : list A)
    (c : conn) (inserted errors : Z) : conn * Z * Z :=
  match rows with
  | [] => (c, inserted, errors)
  | r :: rs =>
      match run_stmt c (stmt_of r) with
      | Some (c', n) => fact_loop stmt_of rs c' (inserted + n) errors
      | None => fact_loop stmt_of rs (rollback c) inserted (errors + 1)
      end
  end.

(** [drop_duplicates]: keep the first row of every key. *)
Fixpoint dedup_aux {A} (eqb : A -> A -> bool) (seen : list A) (l : list A) : list A :=
  match l with
  | [] => []
  | x :: xs =>
      if existsb (fun y => eqb y x) seen then dedup_aux eqb seen xs
      else x :: dedup_aux eqb (x :: seen) xs
  end.

Definition drop_duplicates {A} (eqb : A -> A -> bool) (l : list A) : list A :=
  dedup_aux eqb [] l.

(** Equality of cells for [drop_duplicates]: numbers by value, missing
    values equal to each other. *)
Definition pv_dup_eq (a b : pyval) : bool :=
  match a, b with
  | (PNone | PNaN), (PNone | PNaN) => true
  | PInt x, PInt y => Z.eqb x y
  | PInt x, PFloat q | PFloat q, PInt x => Qeq_bool (inject_Z x) q
  | PFloat p, PFloat q => Qeq_bool p q
  | PStr s, PStr t => String.eqb s t
  | PTimestamp s, PTimestamp t => Z.eqb s t
  | _, _ => false
  end.

(** ** The loaders *)

Section Loaders.
Context `{PyConv} `{Schema}.

Definition opt_int_param (o : option Z) : sqlval :=
  match o with Some z => SInt z | None => SNull end.

(** [int(row[c]) if pd.notna(row[c]) else None]. *)
Definition nullable_int (v : pyval) : option sqlval :=
  if pd_notna v then z ← py_int v; Some (SInt z) else Some SNull.

(** [int(row[c]) if pd.notna(row[c]) else 0]. *)
Definition count_or_zero (v : pyval) : option sqlval :=
  if pd_notna v then z ← py_int v; Some (SInt z) else Some (SInt 0).

(** A float64 cell passed as it is: NaN when missing. *)
Definition float_param (o : option Q) : sqlval :=
  match o with Some q => SNum q | None => SNaN end.

(** load_dimension_time (lines 140-174) *)
(** [time_data['ReleaseDate_Parsed'].notna()] *)
Definition has_date (r : clean_row) : bool :=
  match ReleaseDate_Parsed r with Some _ => true | None => false end.

Definition same_runtime (a b : clean_row) : bool :=
  pv_dup_eq (RunTimeMinutes (raw a)) (RunTimeMinutes (raw b)).

Definition time_data (df : list clean_row) : list clean_row :=
  drop_duplicates same_runtime (List.filter has_date df).

Definition time_stmt (r : clean_row) : option stmt :=
  k ← py_int (RunTimeMinutes (raw r));
  Some {| st_table := DimTime; st_key := k;
          st_row := [SInt k;
                     match ReleaseDate_Parsed r with Some t => STs t | None => SNull end;
                     opt_int_param (Year r); opt_int_param (Quarter r);
                     opt_int_param (Month r);
                     match MonthName r with Some s => SText s | None => SNull end] |}.

Definition load_dimension_time (df : list clean_row) (c : conn) : conn * Z * Z :=
  dim_loop time_stmt (time_data df) c 0 0.

(** load_dimension_film (lines 176-218) *)
Definition cert_value (row : film_row) : option sqlval :=
  if pd_notna (CertificateID row) then
    z ← py_int (CertificateID row); Some (SText (pretty z))
  else if pd_notna (Certificate row) then
    z ← py_int (Certificate row); Some (SText (pretty z))
  else Some SNull.

Definition review_value (row : film_row) : sqlval :=
  if pd_notna (Review row) then SText (substring 0 500 (py_str (Review row))) else SNull.

Definition film_stmt (r : clean_row) : option stmt :=
  let row := raw r in
  cert ← cert_value row;
  k ← py_int (FilmID row);
  Some {| st_table := DimFilm; st_key := k;
          st_row := [SInt k; SText (substring 0 200 (py_str (Title row)));
                     cert; review_value row] |}.

Definition load_dimension_film (df : list clean_row) (c : conn) : conn * Z * Z :=
  dim_loop film_stmt df c 0 0.

(** load_dimension_generic (lines 220-250) *)
Definition placeholder_name (display_name : string) (id_value : Z) : string :=
  display_name +:+ "_" +:+ pretty id_value.

Definition generic_stmt (dim_table : table) (display_name : string) (v : pyval)
  : option stmt :=
  id_value ← py_int v;
  Some {| st_table := dim_table; st_key := id_value;
          st_row := [SInt id_value; SText (placeholder_name display_name id_value)] |}.

Definition unique_values (id_col : film_row -> pyval) (df : list clean_row) : list pyval :=
  drop_duplicates pv_dup_eq (List.filter pd_notna (map (fun r => id_col (raw r)) df)).

Definition load_dimension_generic (df : list clean_row) (c : conn) (dim_table : table)
    (id_col : film_row -> pyval) (display_name : string) : conn * Z * Z :=
  dim_loop (generic_stmt dim_table display_name) (unique_values id_col df) c 0 0.

(** load_fact_table (lines 252-298) *)
Definition fact_stmt (r : clean_row) : option stmt :=
  let row := raw r in
  k ← py_int (FilmID row);
  director ← nullable_int (DirectorID row);
  studio ← nullable_int (StudioID row);
  genre ← nullable_int (GenreID row);
  country ← nullable_int (CountryID row);
  language ← nullable_int (LanguageID row);
  time_id ← nullable_int (RunTimeMinutes row);
  noms ← count_or_zero (OscarNominations row);
  wins ← count_or_zero (OscarWins row);
  runtime ← nullable_int (RunTimeMinutes row);
  Some {| st_table := FactFilmPerformance; st_key := k;
          st_row := [SInt k; director; studio; genre; country; language; time_id;
                     float_param (BudgetDollars_Clean r);
                     float_param (BoxOfficeDollars_Clean r);
                     noms; wins; runtime;
                     float_param (ProfitDollars r);
                     match ROI r with Some q => SNum q | None => SNull end] |}.

Definition load_fact_table (df : list clean_row) (c : conn) : conn * Z * Z :=
  let '(c', inserted, errors) := fact_loop fact_stmt df c 0 0 in
  (commit c', inserted, errors).

(** The load stage of run_etl (lines 330-339). *)
Definition load_all (df : list clean_row) (c : conn) : conn :=
  let '(c, _, _) := load_dimension_time df c in
  let '(c, _, _) := load_dimension_film df c in
  let '(c, _, _) := load_dimension_generic df c DimDirector DirectorID "Director" in
  let '(c, _, _) := load_dimension_generic df c DimStudio StudioID "Studio" in
  let '(c, _, _) := load_dimension_generic df c DimGenre GenreID "Genre" in
  let '(c, _, _) := load_dimension_generic df c DimCountry CountryID "Country" in
  let '(c, _, _) := load_dimension_generic df c DimLanguage LanguageID "Language" in
  let '(c, _, _) := load_fact_table df c in
  c.

(** One run of the load stage on a warehouse: a fresh connection. *)
Definition run_load (df : list clean_row) (s : store) : store :=
  committed (load_all df (connect s)).

End Loaders.

(** ** Concrete runtimes, schemas and batches *)

(** A Python runtime whose string conversions all raise. *)
Definition demo_conv : PyConv := {|
  py_float_of_str := fun _ => None;
  py_int_of_str := fun _ => None;
  py_str := fun _ => ""%string;
  pd_to_datetime_str := fun _ => None;
  timedelta_days_float := fun _ => None
|}.

(** A schema with no checks at all. *)
Definition open_schema : Schema := {|
  rejects := fun _ _ => false;
  fact_fk_ok := fun _ _ => true
|}.

(** A foreign key column: NULL passes, a key must exist in its table. *)
Definition fk_ref (s : store) (tb : table) (v : sqlval) : bool :=
  match v with SInt k => bool_decide (is_Some (s tb !! k)) | _ => true end.

(** The star schema of the spec: every key column of the fact table
    references its dimension (TimeID references DimTime). *)
Definition star_schema : Schema := {|
  rejects := fun _ _ => false;
  fact_fk_ok := fun s tu =>
    fk_ref s DimFilm (nth 0 tu SNull) && fk_ref s DimDirector (nth 1 tu SNull)
    && fk_ref s DimStudio (nth 2 tu SNull) && fk_ref s DimGenre (nth 3 tu SNull)
    && fk_ref s DimCountry (nth 4 tu SNull) && fk_ref s DimLanguage (nth 5 tu SNull)
    && fk_ref s DimTime (nth 6 tu SNull)
|}.

(** A source row with the given film id, runtime, release date and
    financials; every other cell is missing. *)
Definition mk_row (fid runtime date budget box : pyval) : film_row := {|
  FilmID := fid; Title := PStr "Film"; Certificate := PNaN; CertificateID := PNaN;
  Review := PNaN; ReleaseDate := date; BudgetDollars := budget;
  BoxOfficeDollars := box; RunTimeMinutes := runtime; OscarNominations := PNaN;
  OscarWins := PNaN; DirectorID := PNaN; StudioID := PNaN; GenreID := PNaN;
  CountryID := PNaN; LanguageID := PNaN
|}.

(** 2022-01-08 and 2023-03-01 as pandas timestamps. *)
Definition date_a : Z := 19000 * ns_per_day.
Definition date_b : Z := 19417 * ns_per_day.

(** Two rows of film 1: the first runs 90 minutes and has no release
    date, so DimTime gets no key 90 and its fact row breaks the TimeID
    foreign key; film 0 comes before them. *)
Definition rerun_batch : list film_row :=
  [mk_row (PInt 0) (PInt 100) (PTimestamp date_a) (PInt 1000) (PInt 3000);
   mk_row (PInt 1) (PInt 90) PNaN (PInt 1000) (PInt 2000);
   mk_row (PInt 1) (PInt 100) (PTimestamp date_b) (PInt 1000) (PInt 2000)].

(** A good fact row followed by a row whose FilmID is NaN. *)
Definition fact_batch : list film_row :=
  [mk_row (PInt 1) (PInt 120) (PTimestamp date_a) (PInt 1000000) (PInt 3000000);
   mk_row PNaN (PInt 95) (PTimestamp date_b) (PInt 1000) (PInt 2000)].

(** Three rows of runtime 120; the first has no release date. *)
Definition time_batch : list film_row :=
  [mk_row (PInt 1) (PInt 120) PNaN PNaN PNaN;
   mk_row (PInt 2) (PInt 120) (PTimestamp date_a) PNaN PNaN;
   mk_row (PInt 3) (PInt 120) (PTimestamp date_b) PNaN PNaN].

(** Rows of four films, three of them by director 7 (one cell read as
    the float 7.0) and one with no director. *)
Definition director_batch : list film_row :=
  let with_director d r := {|
    FilmID := FilmID r; Title := Title r; Certificate := Certificate r;
    CertificateID := CertificateID r; Review := Review r;
    ReleaseDate := ReleaseDate r; BudgetDollars := BudgetDollars r;
    BoxOfficeDollars := BoxOfficeDollars r; RunTimeMinutes := RunTimeMinutes r;
    OscarNominations := OscarNominations r; OscarWins := OscarWins r;
    DirectorID := d; StudioID := StudioID r; GenreID := GenreID r;
    CountryID := CountryID r; LanguageID := LanguageID r |} in
  [with_director (PInt 7) (mk_row (PInt 1) (PInt 100) PNaN PNaN PNaN);
   with_director (PFloat (7 # 1)) (mk_row (PInt 2) (PInt 110) PNaN PNaN PNaN);
   with_director PNaN (mk_row (PInt 3) (PInt 120) PNaN PNaN PNaN);
   with_director (PInt 7) (mk_row (PInt 4) (PInt 130) PNaN PNaN PNaN)].

(** Replace the FilmID of a cleaned row. *)
Definition with_film_id (fid : pyval) (r : clean_row) : clean_row :=
  let w := raw r in
  {| raw := {| FilmID := fid; Title := Title w; Certificate := Certificate w;
               CertificateID := CertificateID w; Review := Review w;
               ReleaseDate := ReleaseDate w; BudgetDollars := BudgetDollars w;
               BoxOfficeDollars := BoxOfficeDollars w;
               RunTimeMinutes := RunTimeMinutes w;
               OscarNominations := OscarNominations w; OscarWins := OscarWins w;
               DirectorID := DirectorID w; StudioID := StudioID w;
               GenreID := GenreID w; CountryID := CountryID w;
               LanguageID := LanguageID w |};
     ReleaseDate_Parsed := ReleaseDate_Parsed r;
     BudgetDollars_Clean := BudgetDollars_Clean r;
     BoxOfficeDollars_Clean := BoxOfficeDollars_Clean r;
     ProfitDollars := ProfitDollars r; ROI := ROI r; Year := Year r;
     Quarter := Quarter r; Month := Month r; MonthName := MonthName r |}.

(** Replace the parsed release date of a cleaned row. *)
Definition with_parsed_date (d : option Z) (r : clean_row) : clean_row :=
  {| raw := raw r; ReleaseDate_Parsed := d;
     BudgetDollars_Clean := BudgetDollars_Clean r;
     BoxOfficeDollars_Clean := BoxOfficeDollars_Clean r;
     ProfitDollars := ProfitDollars r; ROI := ROI r; Year := Year r;
     Quarter := Quarter r; Month := Month r; MonthName := MonthName r |}.

(** * Transformer *)

Lemma series_gt0_pos (b : Q) : series_gt0 (Some b) = true <-> (0 < b)%Q.
Proof.
  simpl. rewrite negb_true_iff. split; intro Hb.
  - apply Qnot_le_lt. intro Hle. apply Qle_bool_iff in Hle. congruence.
  - destruct (Qle_bool b 0) eqn:E; [|reflexivity].
    apply Qle_bool_iff in E. exfalso. exact (Qlt_not_le _ _ Hb E).
Qed.

Lemma transform_row_fields `{PyConv} (r : film_row) :
  let c := transform_row r in
  raw c = r /\
  ReleaseDate_Parsed c = parse_excel_date (ReleaseDate r) /\
  BudgetDollars_Clean c = clean_numeric (BudgetDollars r) /\
  BoxOfficeDollars_Clean c = clean_numeric (BoxOfficeDollars r) /\
  ProfitDollars c = series_op Qminus (BoxOfficeDollars_Clean c) (BudgetDollars_Clean c) /\
  ROI c = (if series_gt0 (BudgetDollars_Clean c)
           then series_op Qdiv (series_op Qminus (BoxOfficeDollars_Clean c)
                                  (BudgetDollars_Clean c)) (BudgetDollars_Clean c)
           else None).
Proof.
  unfold transform_row.
  destruct (extract_time_components _) as [[[y q] m] mn]. simpl. tauto.
Qed.

(** C2: in every transformed row, ProfitDollars is CleanBoxOffice minus
    CleanBudget and is absent when an operand is absent; ROI is
    (CleanBoxOffice - CleanBudget) / CleanBudget when both are present
    and the budget is strictly positive, and a present ROI always comes
    from a present, strictly positive budget. *)
Theorem transform_profit_and_roi `{PyConv} (df : list film_row) :
  Forall (fun r =>
    (forall x b, BoxOfficeDollars_Clean r = Some x -> BudgetDollars_Clean r = Some b ->
       ProfitDollars r = Some (x - b)%Q) /\
    (BoxOfficeDollars_Clean r = None \/ BudgetDollars_Clean r = None ->
       ProfitDollars r = None) /\
    (forall x b, BoxOfficeDollars_Clean r = Some x -> BudgetDollars_Clean r = Some b ->
       (0 < b)%Q -> ROI r = Some ((x - b) / b)%Q) /\
    (forall q, ROI r = Some q ->
       exists x b, BoxOfficeDollars_Clean r = Some x /\ BudgetDollars_Clean r = Some b /\
                   (0 < b)%Q /\ q = ((x - b) / b)%Q))
    (transform_data df).
Proof.
  apply List.Forall_forall. intros c Hin.
  unfold transform_data in Hin. apply in_map_iff in Hin as [r [<- _]].
  destruct (transform_row_fields r) as (_ & _ & _ & _ & Hp & Hroi).
  rewrite Hp, Hroi.
  destruct (BoxOfficeDollars_Clean (transform_row r)) as [x0|];
  destruct (BudgetDollars_Clean (transform_row r)) as [b0|];
  repeat split.
  all: try (intros x b Hx Hb; discriminate).
  all: try (intros [Hx | Hb]; discriminate).
  all: try (intros; reflexivity).
  all: try (intros q; destruct (series_gt0 _); discriminate).
  - intros x b Hx Hb. injection Hx as <-. injection Hb as <-. reflexivity.
  - intros x b Hx Hb Hpos. injection Hx as <-. injection Hb as <-.
    apply series_gt0_pos in Hpos. rewrite Hpos. reflexivity.
  - intros q. destruct (series_gt0 (Some b0)) eqn:E; [|discriminate].
    intros Hq. injection Hq as <-. apply series_gt0_pos in E.
    exists x0, b0. auto.
Qed.

(** C3 (counterexample): a negative budget cell is kept as a negative
    float; the cleaned value is not always non-negative. *)
Lemma clean_numeric_keeps_negative :
  @clean_numeric demo_conv (PInt (-5)) = Some (-5 # 1)%Q /\ ((-5 # 1) < 0)%Q.
Proof. split; reflexivity. Qed.

(** C3 (amended): clean_numeric maps a missing cell, the empty string and
    a number equal to zero to absent; a non-empty string to float(s)
    (absent when float raises); a nonzero int or float to itself as a
    float, of either sign; a timestamp to absent. *)
Theorem clean_numeric_spec `{PyConv} (value : pyval) :
  (pd_isna value = true \/ value = PStr ""%string \/ py_eq_zero value = true ->
     clean_numeric value = None) /\
  (forall s, value = PStr s -> s <> ""%string -> clean_numeric value = py_float_of_str s) /\
  (forall z, value = PInt z -> z <> 0 -> clean_numeric value = Some (inject_Z z)) /\
  (forall q, value = PFloat q -> ~ (q == 0)%Q -> clean_numeric value = Some q) /\
  (forall t, value = PTimestamp t -> clean_numeric value = None).
Proof.
  unfold clean_numeric. repeat split.
  - intros [Hn | [-> | Hz]].
    + rewrite Hn. reflexivity.
    + reflexivity.
    + rewrite Hz, !orb_true_r. reflexivity.
  - intros s -> Hs. simpl. apply String.eqb_neq in Hs. rewrite Hs. reflexivity.
  - intros z -> Hz. simpl. apply Z.eqb_neq in Hz. rewrite Hz. reflexivity.
  - intros q -> Hq. simpl.
    destruct (Qeq_bool q 0) eqn:E; [apply Qeq_bool_iff in E; contradiction|].
    reflexivity.
  - intros t ->. reflexivity.
Qed.

(** * Date parsing *)

(** C7 (counterexample): the serial 200000 (a day in the 25th century)
    parses to absent, not to 1899-12-30 plus 200000 days: the Timedelta
    overflows pandas' int64 nanoseconds. *)
Lemma parse_excel_date_serial_overflow :
  @parse_excel_date demo_conv (PInt 200000) = None /\
  excel_epoch + 200000 * ns_per_day = (200000 - 25569) * ns_per_day.
Proof. split; reflexivity. Qed.

(** C7 (amended): a timestamp is returned as it is; an integer serial d
    gives 1899-12-30 plus d days when d days and that sum fit pandas'
    nanosecond range (always for -80000 <= d <= 106751) and absent
    otherwise; a float serial goes through pd.Timedelta(days=d) the same
    way; a string gives pd.to_datetime of it; missing gives absent. The
    result is an option: no input raises. *)
Theorem parse_excel_date_spec `{PyConv} :
  (forall t, parse_excel_date (PTimestamp t) = Some t) /\
  (forall d, parse_excel_date (PInt d) =
     if ns_in_range (d * ns_per_day) && ns_in_range (excel_epoch + d * ns_per_day)
     then Some (excel_epoch + d * ns_per_day) else None) /\
  (forall d, -80000 <= d <= 106751 ->
     parse_excel_date (PInt d) = Some (excel_epoch + d * ns_per_day)) /\
  (forall q, parse_excel_date (PFloat q) =
     match timedelta_days_float q with
     | Some td => ts_add excel_epoch td
     | None => None
     end) /\
  (forall s, parse_excel_date (PStr s) = pd_to_datetime_str s) /\
  parse_excel_date PNone = None /\ parse_excel_date PNaN = None.
Proof.
  assert (Hint : forall d, parse_excel_date (PInt d) =
     if ns_in_range (d * ns_per_day) && ns_in_range (excel_epoch + d * ns_per_day)
     then Some (excel_epoch + d * ns_per_day) else None).
  { intros d. unfold parse_excel_date, timedelta_days_int, ts_add. simpl.
    destruct (ns_in_range (d * ns_per_day)); reflexivity. }
  repeat split; try reflexivity; try exact Hint.
  intros d Hd. rewrite Hint.
  assert (Hr : forall n, -9223372036854775807 <= n <= 9223372036854775807 ->
                 ns_in_range n = true).
  { intros n Hn. unfold ns_in_range, int64_min, int64_max.
    replace (2 ^ 63) with 9223372036854775808 by reflexivity.
    apply andb_true_intro. split; [apply Z.ltb_lt | apply Z.leb_le]; lia. }
  unfold excel_epoch, ns_per_day in *.
  replace (10 ^ 9) with 1000000000 by reflexivity.
  rewrite !Hr by lia. reflexivity.
Qed.

(** C9: parsing an already parsed date returns it unchanged, and parsing
    the parser's own output again gives the same result. *)
Theorem parse_excel_date_idempotent `{PyConv} (v : pyval) (t : Z) :
  parse_excel_date (PTimestamp t) = Some t /\
  parse_excel_date (date_cell (parse_excel_date v)) = parse_excel_date v.
Proof.
  split; [reflexivity|].
  destruct (parse_excel_date v) as [t'|]; reflexivity.
Qed.

(** * Loader loops *)

Section LoopFacts.
Context `{Schema}.

(** A store whose rows are those of [s0] or rows of statements in [ok]. *)
Definition from_stmts (s0 : store) (ok : stmt -> Prop) (s : store) : Prop :=
  forall tb k tu, s tb !! k = Some tu ->
    s0 tb !! k = Some tu \/ ok {| st_table := tb; st_key := k; st_row := tu |}.

Definition conn_from (s0 : store) (ok : stmt -> Prop) (c : conn) : Prop :=
  from_stmts s0 ok (committed c) /\ from_stmts s0 ok (pending c).

(** Every row of [s] is still in [s']. *)
Definition extends (s s' : store) : Prop :=
  forall tb k tu, s tb !! k = Some tu -> s' tb !! k = Some tu.

Lemma store_insert_lookup (s : store) tb k tu tb' k' :
  store_insert s tb k tu tb' !! k' =
  if decide (tb = tb' /\ k = k') then Some tu else s tb' !! k'.
Proof.
  unfold store_insert. destruct (decide (tb = tb')) as [<-|Hne].
  - rewrite lookup_insert. destruct (decide (k = k')), (decide (tb = tb /\ k = k'));
      intuition congruence.
  - destruct (decide (tb = tb' /\ k = k')); intuition congruence.
Qed.

Lemma execute_extends (s s' : store) (st : stmt) (n : Z) :
  execute s st = Some (s', n) -> extends s s'.
Proof.
  destruct st as [tb k tu]. unfold execute.
  destruct (rejects tb tu); [discriminate|].
  destruct (s tb !! k) eqn:E.
  - intros Heq. injection Heq as <- _. intros ? ? ? ?; assumption.
  - destruct (fk_ok s tb tu); [|discriminate].
    intros Heq. injection Heq as <- _. intros tb' k' tu' Hl.
    rewrite store_insert_lookup.
    destruct (decide (tb = tb' /\ k = k')) as [[<- <-]|]; congruence.
Qed.

Lemma execute_from (s0 s s' : store) (ok : stmt -> Prop) (st : stmt) (n : Z) :
  from_stmts s0 ok s -> ok st -> execute s st = Some (s', n) -> from_stmts s0 ok s'.
Proof.
  intros Hs Hok. destruct st as [tb k tu]. unfold execute.
  destruct (rejects tb tu); [discriminate|].
  destruct (s tb !! k) eqn:E.
  - intros Heq. injection Heq as <- _. exact Hs.
  - destruct (fk_ok s tb tu); [|discriminate].
    intros Heq. injection Heq as <- _. intros tb' k' tu' Hl.
    rewrite store_insert_lookup in Hl.
    destruct (decide (tb = tb' /\ k = k')) as [[<- <-]|].
    + injection Hl as <-. right. exact Hok.
    + apply Hs. exact Hl.
Qed.

(** A statement that runs changes only its own table. *)
Lemma execute_frame (s s' : store) (st : stmt) (n : Z) (tb : table) :
  execute s st = Some (s', n) -> tb <> st_table st -> s' tb = s tb.
Proof.
  destruct st as [tbs k tu]. unfold execute. simpl.
  destruct (rejects tbs tu); [discriminate|].
  destruct (s tbs !! k).
  - intros Heq _. injection Heq as <- _. reflexivity.
  - destruct (fk_ok s tbs tu); [|discriminate].
    intros Heq Hne. injection Heq as <- _. unfold store_insert.
    destruct (decide (tbs = tb)); congruence.
Qed.

Lemma dim_loop_app {A} (stmt_of : A -> option stmt) (l1 l2 : list A) c i e :
  dim_loop stmt_of (l1 ++ l2) c i e =
  let '(c', i', e') := dim_loop stmt_of l1 c i e in dim_loop stmt_of l2 c' i' e'.
Proof.
  revert c i e. induction l1 as [|r l1 IH]; intros c i e; [reflexivity|].
  simpl. destruct (run_stmt c (stmt_of r)) as [[c' n]|]; apply IH.
Qed.

Lemma fact_loop_app {A} (stmt_of : A -> option stmt) (l1 l2 : list A) c i e :
  fact_loop stmt_of (l1 ++ l2) c i e =
  let '(c', i', e') := fact_loop stmt_of l1 c i e in fact_loop stmt_of l2 c' i' e'.
Proof.
  revert c i e. induction l1 as [|r l1 IH]; intros c i e; [reflexivity|].
  simpl. destruct (run_stmt c (stmt_of r)) as [[c' n]|]; apply IH.
Qed.

Lemma run_stmt_some (c c' : conn) (o : option stmt) (n : Z) :
  run_stmt c o = Some (c', n) ->
  exists st, o = Some st /\ committed c' = committed c /\
             execute (pending c) st = Some (pending c', n).
Proof.
  unfold run_stmt. destruct o as [st|]; [|discriminate].
  destruct (execute (pending c) st) as [[s' m]|] eqn:E; [|discriminate].
  intros Heq. injection Heq as <- <-. exists st. auto.
Qed.

(** The dimension loop leaves every row committed and only adds rows. *)
Lemma dim_loop_sync {A} (stmt_of : A -> option stmt) (rows : list A) c i e :
  pending c = committed c ->
  let c' := fst (fst (dim_loop stmt_of rows c i e)) in
  pending c' = committed c' /\ extends (committed c) (committed c').
Proof.
  revert c i e. induction rows as [|r rows IH]; intros c i e Hc; simpl.
  - split; [exact Hc | intros ? ? ? ?; assumption].
  - destruct (run_stmt c (stmt_of r)) as [[c1 n]|] eqn:E.
    + apply run_stmt_some in E as (st & _ & Hcom & Hex).
      destruct (IH (commit c1) (i + n) e eq_refl) as [Hs Hext].
      split; [exact Hs|]. intros tb k tu Hl. apply Hext. simpl.
      rewrite Hc in Hex. exact (execute_extends _ _ _ _ Hex tb k tu Hl).
    + exact (IH (rollback c) i (e + 1) eq_refl).
Qed.

Lemma dim_loop_from {A} (stmt_of : A -> option stmt) (rows : list A) c i e
    (s0 : store) (ok : stmt -> Prop) :
  (forall r st, In r rows -> stmt_of r = Some st -> ok st) ->
  conn_from s0 ok c -> conn_from s0 ok (fst (fst (dim_loop stmt_of rows c i e))).
Proof.
  revert c i e. induction rows as [|r rows IH]; intros c i e Hok Hc; simpl; [exact Hc|].
  destruct (run_stmt c (stmt_of r)) as [[c1 n]|] eqn:E.
  - apply IH; [intros; eapply Hok; simpl; eauto|].
    apply run_stmt_some in E as (st & Hst & _ & Hex).
    assert (from_stmts s0 ok (pending c1)) as Hp
      by (eapply execute_from; [apply Hc | eapply Hok; [left; reflexivity | exact Hst] | exact Hex]).
    split; exact Hp.
  - apply IH; [intros; eapply Hok; simpl; eauto|].
    split; apply Hc.
Qed.

Lemma fact_loop_from {A} (stmt_of : A -> option stmt) (rows : list A) c i e
    (s0 : store) (ok : stmt -> Prop) :
  (forall r st, In r rows -> stmt_of r = Some st -> ok st) ->
  conn_from s0 ok c -> conn_from s0 ok (fst (fst (fact_loop stmt_of rows c i e))).
Proof.
  revert c i e. induction rows as [|r rows IH]; intros c i e Hok Hc; simpl; [exact Hc|].
  destruct (run_stmt c (stmt_of r)) as [[c1 n]|] eqn:E.
  - apply IH; [intros; eapply Hok; simpl; eauto|].
    apply run_stmt_some in E as (st & Hst & Hcom & Hex).
    split; [rewrite Hcom; apply Hc|].
    eapply execute_from; [apply Hc | eapply Hok; [left; reflexivity | exact Hst] | exact Hex].
  - apply IH; [intros; eapply Hok; simpl; eauto|].
    split; apply Hc.
Qed.

End LoopFacts.

Lemma existsb_map_comm {A B} (f : B -> bool) (g : A -> B) (l : list A) :
  existsb f (map g l) = existsb (fun x => f (g x)) l.
Proof. induction l as [|x l IH]; simpl; [reflexivity|]. rewrite IH. reflexivity. Qed.

Lemma dedup_aux_map {A B} (g : A -> B) (eqb : B -> B -> bool) (seen l : list A) :
  dedup_aux eqb (map g seen) (map g l) = map g (dedup_aux (fun a b => eqb (g a) (g b)) seen l).
Proof.
  revert seen. induction l as [|x l IH]; intros seen; [reflexivity|].
  simpl. rewrite existsb_map_comm.
  destruct (existsb (fun y => eqb (g y) (g x)) seen); [apply IH|].
  simpl. f_equal. exact (IH (x :: seen)).
Qed.

Lemma filter_map_comm {A B} (f : B -> bool) (g : A -> B) (l : list A) :
  List.filter f (map g l) = map g (List.filter (fun x => f (g x)) l).
Proof.
  induction l as [|x l IH]; [reflexivity|]. simpl.
  destruct (f (g x)); simpl; rewrite IH; reflexivity.
Qed.

Lemma dim_loop_map `{Schema} {A B} (stmt_of : B -> option stmt) (g : A -> B) (l : list A) c i e :
  dim_loop stmt_of (map g l) c i e = dim_loop (fun a => stmt_of (g a)) l c i e.
Proof.
  revert c i e. induction l as [|x l IH]; intros c i e; [reflexivity|].
  simpl. destruct (run_stmt c (stmt_of (g x))) as [[c' n]|]; apply IH.
Qed.

(** Nothing is committed during the fact loop. *)
Lemma fact_loop_committed `{Schema} {A} (stmt_of : A -> option stmt) (rows : list A) c i e :
  committed (fst (fst (fact_loop stmt_of rows c i e))) = committed c.
Proof.
  revert c i e. induction rows as [|r rows IH]; intros c i e; [reflexivity|].
  simpl. destruct (run_stmt c (stmt_of r)) as [[c1 n]|] eqn:E.
  - rewrite IH. apply run_stmt_some in E as (st & _ & Hcom & _). exact Hcom.
  - rewrite IH. reflexivity.
Qed.

Lemma rollback_synced (c : conn) : pending c = committed c -> rollback c = c.
Proof. destruct c as [cm pd]. simpl. intros ->. reflexivity. Qed.

(** C6: a row whose statement fails (in Python or in the database) is
    counted as an error after a rollback, and every loader goes on with
    the next row as if that row were absent; in a dimension loader the
    rollback leaves the committed state as it was. A row with a malformed
    FilmID fails in the film and fact loaders only: the time and the five
    generic dimension loads do not depend on FilmID at all. *)
Theorem loaders_isolate_failing_row `{PyConv} `{Schema} :
  (forall A (stmt_of : A -> option stmt) (l1 l2 : list A) (r : A) c c1 i1 e1,
     dim_loop stmt_of l1 c 0 0 = (c1, i1, e1) ->
     run_stmt c1 (stmt_of r) = None ->
     dim_loop stmt_of (l1 ++ r :: l2) c 0 0 = dim_loop stmt_of l2 (rollback c1) i1 (e1 + 1) /\
     (pending c = committed c -> rollback c1 = c1)) /\
  (forall A (stmt_of : A -> option stmt) (l1 l2 : list A) (r : A) c c1 i1 e1,
     fact_loop stmt_of l1 c 0 0 = (c1, i1, e1) ->
     run_stmt c1 (stmt_of r) = None ->
     fact_loop stmt_of (l1 ++ r :: l2) c 0 0 = fact_loop stmt_of l2 (rollback c1) i1 (e1 + 1)) /\
  (forall r, py_int (FilmID (raw r)) = None -> film_stmt r = None /\ fact_stmt r = None) /\
  (forall fid df c,
     load_dimension_time (map (with_film_id fid) df) c = load_dimension_time df c /\
     load_dimension_generic (map (with_film_id fid) df) c DimDirector DirectorID "Director" =
       load_dimension_generic df c DimDirector DirectorID "Director" /\
     load_dimension_generic (map (with_film_id fid) df) c DimStudio StudioID "Studio" =
       load_dimension_generic df c DimStudio StudioID "Studio" /\
     load_dimension_generic (map (with_film_id fid) df) c DimGenre GenreID "Genre" =
       load_dimension_generic df c DimGenre GenreID "Genre" /\
     load_dimension_generic (map (with_film_id fid) df) c DimCountry CountryID "Country" =
       load_dimension_generic df c DimCountry CountryID "Country" /\
     load_dimension_generic (map (with_film_id fid) df) c DimLanguage LanguageID "Language" =
       load_dimension_generic df c DimLanguage LanguageID "Language").
Proof.
  split; [|split; [|split]].
  - intros A stmt_of l1 l2 r c c1 i1 e1 Hl1 Hr. split.
    + rewrite dim_loop_app, Hl1. simpl. rewrite Hr. reflexivity.
    + intros Hc. apply rollback_synced.
      pose proof (dim_loop_sync stmt_of l1 c 0 0 Hc) as [Hs _].
      rewrite Hl1 in Hs. exact Hs.
  - intros A stmt_of l1 l2 r c c1 i1 e1 Hl1 Hr.
    rewrite fact_loop_app, Hl1. simpl. rewrite Hr. reflexivity.
  - intros r Hf. unfold film_stmt, fact_stmt. rewrite Hf. simpl.
    split; [|reflexivity].
    destruct (cert_value (raw r)); reflexivity.
  - intros fid df c. split.
    + unfold load_dimension_time, time_data.
      rewrite filter_map_comm.
      unfold drop_duplicates.
      assert (Hd : forall l, dedup_aux same_runtime [] (map (with_film_id fid) l) =
                             map (with_film_id fid) (dedup_aux same_runtime [] l))
        by (intros l; exact (dedup_aux_map (with_film_id fid) same_runtime [] l)).
      rewrite Hd, dim_loop_map. reflexivity.
    + unfold load_dimension_generic, unique_values.
      rewrite !map_map. repeat split.
Qed.

(** C4 (code bug): film 1 is inserted (rowcount 1), then the row with a
    NaN FilmID fails; its rollback discards film 1, so the final commit
    persists nothing. *)
Theorem fact_load_failure_discards_earlier_rows :
  let '(c, inserted, errors) :=
    @load_fact_table demo_conv open_schema (@transform_data demo_conv fact_batch)
      (connect empty_store) in
  inserted = 1 /\ errors = 1 /\ committed c FactFilmPerformance !! 1 = None.
Proof. vm_compute. repeat split. Qed.

(** C1 (code bug): on the star schema, two runs of the load stage over
    the same cleaned batch from an empty warehouse: the first run commits
    only film 1 (the TimeID failure of the second row rolled film 0 back),
    the second run adds film 0 (the failing row now meets film 1 and is
    skipped on conflict). *)
Theorem rerun_adds_fact_row :
  let df := @transform_data demo_conv rerun_batch in
  let s1 := @run_load demo_conv star_schema df empty_store in
  let s2 := @run_load demo_conv star_schema df s1 in
  s1 FactFilmPerformance !! 0 = None /\ is_Some (s1 FactFilmPerformance !! 1) /\
  is_Some (s2 FactFilmPerformance !! 0) /\
  size (s1 FactFilmPerformance) = 1%nat /\ size (s2 FactFilmPerformance) = 2%nat.
Proof. vm_compute. repeat split; eexists; reflexivity. Qed.

(** * drop_duplicates *)

Section Dedup.
Context {A : Type} (eqb : A -> A -> bool).

Lemma dedup_aux_in (seen l : list A) (x : A) :
  In x (dedup_aux eqb seen l) -> In x l.
Proof.
  revert seen. induction l as [|a l IH]; intros seen; simpl; [tauto|].
  destruct (existsb (fun y => eqb y a) seen); simpl.
  - intros Hx. right. exact (IH _ Hx).
  - intros [<- | Hx]; [left; reflexivity | right; exact (IH _ Hx)].
Qed.

(** A kept element matches nothing seen before it. *)
Lemma dedup_aux_fresh (seen l : list A) (x y : A) :
  In x (dedup_aux eqb seen l) -> In y seen -> eqb y x = false.
Proof.
  revert seen. induction l as [|a l IH]; intros seen; simpl; [tauto|].
  destruct (existsb (fun z => eqb z a) seen) eqn:E.
  - apply IH.
  - intros [-> | Hx] Hy.
    + destruct (eqb y x) eqn:Eyx; [|reflexivity].
      assert (existsb (fun z => eqb z x) seen = true)
        by (apply existsb_exists; exists y; auto).
      congruence.
    + apply (IH (a :: seen)); [exact Hx | right; exact Hy].
Qed.

Lemma dedup_aux_distinct (seen l l1 l2 : list A) (v w : A) :
  dedup_aux eqb seen l = l1 ++ v :: l2 -> In w l2 -> eqb v w = false.
Proof.
  revert seen l1. induction l as [|a l IH]; intros seen l1; simpl.
  - destruct l1; discriminate.
  - destruct (existsb (fun z => eqb z a) seen); [apply IH|].
    destruct l1 as [|b l1]; simpl; intros Heq Hw; injection Heq as Hba Hrest.
    + subst v. apply (dedup_aux_fresh (a :: seen) l); [rewrite Hrest; exact Hw | left; reflexivity].
    + exact (IH (a :: seen) l1 Hrest Hw).
Qed.

Hypothesis eqb_refl : forall a, eqb a a = true.

(** Every element has a match that was seen or is kept. *)
Lemma dedup_aux_cover (seen l : list A) (x : A) :
  In x l ->
  (exists y, In y seen /\ eqb y x = true) \/
  (exists y, In y (dedup_aux eqb seen l) /\ eqb y x = true).
Proof.
  revert seen. induction l as [|a l IH]; intros seen; simpl; [tauto|].
  intros Hx. destruct (existsb (fun z => eqb z a) seen) eqn:E.
  - destruct Hx as [-> | Hx]; [|exact (IH seen Hx)].
    left. apply existsb_exists in E. exact E.
  - destruct Hx as [-> | Hx].
    + right. exists x. split; [left; reflexivity | apply eqb_refl].
    + destruct (IH (a :: seen) Hx) as [(y & [-> | Hy] & Hyx) | (y & Hy & Hyx)].
      * right. exists y. split; [left; reflexivity | exact Hyx].
      * left. exists y. auto.
      * right. exists y. split; [right; exact Hy | exact Hyx].
Qed.

Lemma drop_duplicates_cover (l : list A) (x : A) :
  In x l -> exists y, In y (drop_duplicates eqb l) /\ eqb y x = true.
Proof.
  intros Hx. destruct (dedup_aux_cover [] l x Hx) as [(y & [] & _) | H]; exact H.
Qed.

End Dedup.

(** * Cell equality *)

Lemma pv_dup_eq_refl (a : pyval) : pv_dup_eq a a = true.
Proof.
  destruct a; simpl; try reflexivity.
  - apply Z.eqb_refl.
  - apply Qeq_bool_refl.
  - apply String.eqb_refl.
  - apply Z.eqb_refl.
Qed.

Lemma quot_of_Qeq (p q : Q) :
  (p == q)%Q -> Z.quot (Qnum p) (Zpos (Qden p)) = Z.quot (Qnum q) (Zpos (Qden q)).
Proof.
  unfold Qeq. intros Hpq.
  rewrite <- (Z.quot_mul_cancel_r (Qnum p) (Zpos (Qden p)) (Zpos (Qden q))) by lia.
  rewrite Hpq, (Z.mul_comm (Zpos (Qden p)) (Zpos (Qden q))).
  apply Z.quot_mul_cancel_r; lia.
Qed.

(** Duplicate cells convert to the same int. *)
Lemma pv_dup_eq_py_int `{PyConv} (a b : pyval) :
  pv_dup_eq a b = true -> py_int a = py_int b.
Proof.
  destruct a, b; simpl; intros E; try discriminate; try reflexivity.
  - apply Z.eqb_eq in E. subst. reflexivity.
  - apply Qeq_bool_iff in E. f_equal.
    rewrite <- (quot_of_Qeq _ _ E). simpl. symmetry. apply Z.quot_1_r.
  - apply Qeq_bool_iff in E. f_equal.
    rewrite <- (quot_of_Qeq _ _ E). simpl. apply Z.quot_1_r.
  - apply Qeq_bool_iff in E. f_equal. exact (quot_of_Qeq _ _ E).
  - apply String.eqb_eq in E. subst. reflexivity.
Qed.

(** * Dimension loads *)

(** A statement that the schema accepts leaves its key present. *)
Lemma dim_loop_present `{Schema} {A} (stmt_of : A -> option stmt) (rows : list A)
    c i e (y : A) (st : stmt) :
  pending c = committed c -> In y rows -> stmt_of y = Some st ->
  rejects (st_table st) (st_row st) = false ->
  (forall s, fk_ok s (st_table st) (st_row st) = true) ->
  is_Some (committed (fst (fst (dim_loop stmt_of rows c i e))) (st_table st) !! st_key st).
Proof.
  revert c i e. induction rows as [|r rows IH]; intros c i e Hc Hy Hst Hrej Hfk;
    [destruct Hy|].
  destruct Hy as [-> | Hy].
  - simpl. rewrite Hst. destruct st as [tb k tu]. simpl in *.
    unfold run_stmt, execute. rewrite Hrej.
    destruct (pending c tb !! k) as [tu0|] eqn:L.
    + destruct (dim_loop_sync stmt_of rows (commit {| committed := committed c; pending := pending c |})
                  (i + 0) e eq_refl) as [_ Hext].
      exists tu0. apply Hext. exact L.
    + rewrite Hfk.
      destruct (dim_loop_sync stmt_of rows
                  (commit {| committed := committed c; pending := store_insert (pending c) tb k tu |})
                  (i + 1) e eq_refl) as [_ Hext].
      exists tu. apply Hext. simpl. rewrite store_insert_lookup.
      destruct (decide (tb = tb /\ k = k)); [reflexivity | tauto].
  - simpl. destruct (run_stmt c (stmt_of r)) as [[c1 n]|];
      apply IH; auto.
Qed.

Lemma unique_values_spec `{PyConv} (id_col : film_row -> pyval) (df : list clean_row) (v : pyval) :
  In v (unique_values id_col df) -> pd_notna v = true /\ exists r, In r df /\ id_col (raw r) = v.
Proof.
  unfold unique_values, drop_duplicates. intros Hv.
  apply dedup_aux_in, filter_In in Hv as [Hv Hn].
  apply in_map_iff in Hv as (r & Hr & Hin). split; [exact Hn|]. exists r. auto.
Qed.

Lemma generic_stmt_some `{PyConv} (dim_table : table) (display_name : string) (v : pyval)
    (st : stmt) :
  generic_stmt dim_table display_name v = Some st ->
  exists k, py_int v = Some k /\
    st = {| st_table := dim_table; st_key := k;
            st_row := [SInt k; SText (placeholder_name display_name k)] |}.
Proof.
  unfold generic_stmt. destruct (py_int v) as [k|]; simpl; [|discriminate].
  intros Heq. injection Heq as <-. exists k. auto.
Qed.

Lemma fk_ok_dim `{Schema} (s : store) (tb : table) (tu : tuple) :
  tb <> FactFilmPerformance -> fk_ok s tb tu = true.
Proof. destruct tb; simpl; congruence. Qed.

(** C8: the generic dimension loader iterates over the non-missing
    values of the id column without duplicates; a row already in the
    table stays as it is; every new row is (k, "<Label>_k") for an id k of
    the batch; and every id of the batch that the schema accepts is
    present afterwards, so rows with the same id give one pair. *)
Theorem generic_dimension_load `{PyConv} `{Schema} (df : list clean_row) (s : store)
    (dim_table : table) (id_col : film_row -> pyval) (display_name : string) :
  dim_table <> FactFilmPerformance ->
  let c := fst (fst (load_dimension_generic df (connect s) dim_table id_col display_name)) in
  (forall v, In v (unique_values id_col df) ->
     pd_notna v = true /\ exists r, In r df /\ id_col (raw r) = v) /\
  (forall l1 v l2 w, unique_values id_col df = l1 ++ v :: l2 -> In w l2 ->
     pv_dup_eq v w = false) /\
  (forall k tu, s dim_table !! k = Some tu -> committed c dim_table !! k = Some tu) /\
  (forall k tu, committed c dim_table !! k = Some tu -> s dim_table !! k = None ->
     tu = [SInt k; SText (placeholder_name display_name k)] /\
     exists r, In r df /\ py_int (id_col (raw r)) = Some k) /\
  (forall r k, In r df -> py_int (id_col (raw r)) = Some k ->
     rejects dim_table [SInt k; SText (placeholder_name display_name k)] = false ->
     is_Some (committed c dim_table !! k)).
Proof.
  intros Hdim c. split; [|split; [|split; [|split]]].
  - apply unique_values_spec.
  - intros l1 v l2 w Hu Hw. exact (dedup_aux_distinct pv_dup_eq [] _ l1 l2 v w Hu Hw).
  - intros k tu Hk.
    destruct (dim_loop_sync (generic_stmt dim_table display_name) (unique_values id_col df)
                (connect s) 0 0 eq_refl) as [_ Hext].
    exact (Hext dim_table k tu Hk).
  - intros k tu Hk Hnone.
    set (ok := fun st : stmt => exists v, In v (unique_values id_col df) /\
                 generic_stmt dim_table display_name v = Some st).
    assert (Hfrom : conn_from s ok c).
    { apply dim_loop_from; [intros v st Hv Hst; exists v; auto|].
      split; intros ? ? ? ?; left; assumption. }
    destruct (proj1 Hfrom dim_table k tu Hk) as [Hs | (v & Hv & Hst)]; [congruence|].
    apply generic_stmt_some in Hst as (k' & Hk' & Heq). injection Heq as <- <-.
    split; [reflexivity|].
    destruct (unique_values_spec id_col df v Hv) as (_ & r & Hr & <-).
    exists r. auto.
  - intros r k Hr Hk Hrej.
    assert (Hn : pd_notna (id_col (raw r)) = true)
      by (revert Hk; destruct (id_col (raw r)); simpl; intros Hk; [discriminate | discriminate | reflexivity ..]).
    assert (Hin : In (id_col (raw r)) (List.filter pd_notna (map (fun r => id_col (raw r)) df)))
      by (apply filter_In; split; [apply in_map_iff; exists r; auto | exact Hn]).
    destruct (drop_duplicates_cover pv_dup_eq pv_dup_eq_refl _ _ Hin) as (y & Hy & Hyr).
    apply pv_dup_eq_py_int in Hyr. rewrite Hk in Hyr.
    assert (Hst : generic_stmt dim_table display_name y =
                  Some {| st_table := dim_table; st_key := k;
                          st_row := [SInt k; SText (placeholder_name display_name k)] |})
      by (unfold generic_stmt; rewrite Hyr; reflexivity).
    exact (dim_loop_present _ _ (connect s) 0 0 y _ eq_refl Hy Hst Hrej
             (fun s' => fk_ok_dim s' _ _ Hdim)).
Qed.

(** C8 witness: director 7 appears as 7 and as 7.0 and gets the single
    row (7, "Director_7"); the missing cell is skipped. *)
Lemma generic_dimension_load_witness :
  let df := @transform_data demo_conv director_batch in
  let c := fst (fst (@load_dimension_generic demo_conv open_schema df (connect empty_store)
                       DimDirector DirectorID "Director")) in
  DimDirector <> FactFilmPerformance /\
  unique_values DirectorID df = [PInt 7] /\
  committed c DimDirector !! 7 = Some [SInt 7; SText "Director_7"] /\
  ((forall v, In v (unique_values DirectorID df) ->
     pd_notna v = true /\ exists r, In r df /\ DirectorID (raw r) = v) /\
   (forall l1 v l2 w, unique_values DirectorID df = l1 ++ v :: l2 -> In w l2 ->
     pv_dup_eq v w = false) /\
   (forall k tu, empty_store DimDirector !! k = Some tu -> committed c DimDirector !! k = Some tu) /\
   (forall k tu, committed c DimDirector !! k = Some tu -> empty_store DimDirector !! k = None ->
     tu = [SInt k; SText (placeholder_name "Director" k)] /\
     exists r, In r df /\ @py_int demo_conv (DirectorID (raw r)) = Some k) /\
   (forall r k, In r df -> @py_int demo_conv (DirectorID (raw r)) = Some k ->
     rejects (Schema := open_schema) DimDirector [SInt k; SText (placeholder_name "Director" k)] = false ->
     is_Some (committed c DimDirector !! k))).
Proof.
  split; [discriminate|]. split; [vm_compute; reflexivity|]. split; [vm_compute; reflexivity|].
  exact (@generic_dimension_load demo_conv open_schema (@transform_data demo_conv director_batch)
           empty_store DimDirector DirectorID "Director" ltac:(discriminate)).
Defined.

(** * Time dimension *)

Lemma pv_dup_eq_sym (a b : pyval) : pv_dup_eq a b = true -> pv_dup_eq b a = true.
Proof.
  destruct a, b; simpl; intros E; try discriminate; try reflexivity; try exact E.
  - apply Z.eqb_eq in E. subst. apply Z.eqb_refl.
  - apply Qeq_bool_iff in E. apply Qeq_bool_iff. symmetry. exact E.
  - apply String.eqb_eq in E. subst. apply String.eqb_refl.
  - apply Z.eqb_eq in E. subst. apply Z.eqb_refl.
Qed.

Lemma inject_Z_Qeq (x y : Z) : (inject_Z x == inject_Z y)%Q -> x = y.
Proof. unfold Qeq. simpl. lia. Qed.

Lemma pv_dup_eq_trans (a b c : pyval) :
  pv_dup_eq a b = true -> pv_dup_eq b c = true -> pv_dup_eq a c = true.
Proof.
  destruct a, b, c; simpl; intros E1 E2; try discriminate; try reflexivity;
    repeat match goal with
           | H : Z.eqb _ _ = true |- _ => apply Z.eqb_eq in H; subst
           | H : String.eqb _ _ = true |- _ => apply String.eqb_eq in H; subst
           | H : Qeq_bool _ _ = true |- _ => apply Qeq_bool_iff in H
           end;
    try apply Z.eqb_refl; try apply String.eqb_refl;
    lazymatch goal with
    | |- Z.eqb _ _ = true => apply Z.eqb_eq, inject_Z_Qeq
    | |- Qeq_bool _ _ = true => apply Qeq_bool_iff
    | _ => idtac
    end;
    solve [ assumption
          | eapply Qeq_trans; eassumption
          | eapply Qeq_trans; [eassumption | symmetry; eassumption]
          | eapply Qeq_trans; [symmetry; eassumption | eassumption] ].
Qed.

Section FindDedup.
Context {A : Type} (eqb : A -> A -> bool).
Hypothesis eqb_sym : forall a b, eqb a b = true -> eqb b a = true.
Hypothesis eqb_trans : forall a b c, eqb a b = true -> eqb b c = true -> eqb a c = true.

(** The first element matching [r] survives drop_duplicates. *)
Lemma find_dedup_aux (r : A) (seen l : list A) :
  (forall y, In y seen -> eqb r y = false) ->
  List.find (eqb r) (dedup_aux eqb seen l) = List.find (eqb r) l.
Proof.
  revert seen. induction l as [|a l IH]; intros seen Hseen; [reflexivity|].
  simpl. destruct (existsb (fun y => eqb y a) seen) eqn:E.
  - assert (Hra : eqb r a = false).
    { apply existsb_exists in E as (y & Hy & Hya).
      destruct (eqb r a) eqn:Hra; [|reflexivity].
      assert (Hry : eqb r y = true)
        by (apply (eqb_trans _ a); [exact Hra | apply eqb_sym; exact Hya]).
      rewrite (Hseen y Hy) in Hry. discriminate. }
    rewrite Hra. apply IH. exact Hseen.
  - simpl. destruct (eqb r a) eqn:Hra; [reflexivity|].
    apply IH. intros y [<- | Hy]; [exact Hra | exact (Hseen y Hy)].
Qed.

End FindDedup.

Lemma time_stmt_some `{PyConv} (r : clean_row) (st : stmt) :
  time_stmt r = Some st -> st_table st = DimTime.
Proof.
  unfold time_stmt. destruct (py_int _); simpl; [|discriminate].
  intros Heq. injection Heq as <-. reflexivity.
Qed.

(** C5 (counterexample): the first row with runtime 120 has no release
    date; the time dimension still gets key 120, with the date of the
    second row: rows without a date are dropped before deduplication,
    not after. *)
Lemma time_dimension_skips_undated_first_row :
  let df := @transform_data demo_conv time_batch in
  let c := fst (fst (@load_dimension_time demo_conv open_schema df (connect empty_store))) in
  map (fun r => RunTimeMinutes (raw r)) df = [PInt 120; PInt 120; PInt 120] /\
  map ReleaseDate_Parsed df = [None; Some date_a; Some date_b] /\
  committed c DimTime !! 120 =
    Some [SInt 120; STs date_a; SInt 2022; SInt 1; SInt 1; SText "January"].
Proof. vm_compute. repeat split. Qed.

(** C5 (amended): the time loader first drops the rows without a parsed
    date, then keeps the first remaining row of every RunTimeMinutes
    value: every kept row has a date, the kept row of a runtime is the
    first dated row of the batch with that runtime, no two kept rows
    share a runtime, existing DimTime rows stay, and every new DimTime
    row is built from a kept row. *)
Theorem time_dimension_rows `{PyConv} `{Schema} (df : list clean_row) (s : store) :
  let c := fst (fst (load_dimension_time df (connect s))) in
  (forall r, In r (time_data df) -> In r df /\ is_Some (ReleaseDate_Parsed r)) /\
  (forall r, List.find (same_runtime r) (time_data df) =
             List.find (same_runtime r) (List.filter has_date df)) /\
  (forall l1 r l2 r', time_data df = l1 ++ r :: l2 -> In r' l2 -> same_runtime r r' = false) /\
  (forall k tu, s DimTime !! k = Some tu -> committed c DimTime !! k = Some tu) /\
  (forall k tu, committed c DimTime !! k = Some tu -> s DimTime !! k = None ->
     exists r, In r (time_data df) /\
       time_stmt r = Some {| st_table := DimTime; st_key := k; st_row := tu |}).
Proof.
  intros c. split; [|split; [|split; [|split]]].
  - intros r Hr. unfold time_data, drop_duplicates in Hr.
    apply dedup_aux_in, filter_In in Hr as [Hr Hd]. split; [exact Hr|].
    unfold has_date in Hd. destruct (ReleaseDate_Parsed r); [eexists; reflexivity | discriminate].
  - intros r. unfold time_data, drop_duplicates. apply find_dedup_aux.
    + intros a b. apply pv_dup_eq_sym.
    + intros a b d. apply pv_dup_eq_trans.
    + intros y [].
  - intros l1 r l2 r' Hu Hr'. exact (dedup_aux_distinct same_runtime [] _ l1 l2 r r' Hu Hr').
  - intros k tu Hk.
    destruct (dim_loop_sync time_stmt (time_data df) (connect s) 0 0 eq_refl) as [_ Hext].
    exact (Hext DimTime k tu Hk).
  - intros k tu Hk Hnone.
    set (ok := fun st : stmt => exists r, In r (time_data df) /\ time_stmt r = Some st).
    assert (Hfrom : conn_from s ok c).
    { apply dim_loop_from; [intros r st Hr Hst; exists r; auto|].
      split; intros ? ? ? ?; left; assumption. }
    destruct (proj1 Hfrom DimTime k tu Hk) as [Hs | Hok]; [congruence | exact Hok].
Qed.

(** * The whole load stage *)

Lemma film_stmt_some `{PyConv} (r : clean_row) (st : stmt) :
  film_stmt r = Some st -> st_table st = DimFilm.
Proof.
  unfold film_stmt. destruct (cert_value (raw r)); simpl; [|discriminate].
  destruct (py_int (FilmID (raw r))); simpl; [|discriminate].
  intros Heq. injection Heq as <-. reflexivity.
Qed.

Ltac thread_loop s ok :=
  match goal with
  | Hc : conn_from s ok ?c |- context [dim_loop ?f ?l ?c 0 0] =>
      let H' := fresh "Hc" in
      let c' := fresh "c" in
      assert (H' : conn_from s ok (fst (fst (dim_loop f l c 0 0))))
        by (apply dim_loop_from; [|exact Hc];
            intros ? ? _ Hst; left;
            first [ apply time_stmt_some in Hst
                  | apply film_stmt_some in Hst
                  | apply generic_stmt_some in Hst as (? & _ & Hst); subst ];
            simpl; try rewrite Hst; discriminate);
      destruct (dim_loop f l c 0 0) as [[c' ?] ?]; cbn [fst] in H';
      clear Hc
  end.

(** Every row that the load stage adds to the fact table is the
    statement that fact_stmt builds from some row of the batch. *)
Lemma run_load_fact_rows `{PyConv} `{Schema} (df : list clean_row) (s : store) (k : Z) (tu : tuple) :
  run_load df s FactFilmPerformance !! k = Some tu ->
  s FactFilmPerformance !! k = Some tu \/
  exists r, In r df /\
    fact_stmt r = Some {| st_table := FactFilmPerformance; st_key := k; st_row := tu |}.
Proof.
  set (ok := fun st : stmt => st_table st <> FactFilmPerformance \/
                              exists r, In r df /\ fact_stmt r = Some st).
  assert (Hstart : conn_from s ok (connect s)) by (split; intros ? ? ? ?; left; assumption).
  unfold run_load, load_all, load_dimension_time, load_dimension_film,
    load_dimension_generic, load_fact_table.
  repeat thread_loop s ok.
  match goal with
  | |- context [fact_loop fact_stmt df ?c 0 0] =>
      assert (Hf : conn_from s ok (fst (fst (fact_loop fact_stmt df c 0 0))))
        by (apply fact_loop_from; [intros r st Hr Hst; right; exists r; auto | assumption]);
      destruct (fact_loop fact_stmt df c 0 0) as [[cf ?] ?]
  end.
  simpl in *. intros Hk.
  destruct (proj2 Hf FactFilmPerformance k tu Hk) as [Hs | [Hne | Hr]].
  - left. exact Hs.
  - simpl in Hne. congruence.
  - right. exact Hr.
Qed.

(** The TimeID (position 6) and RunTimeMinutes (position 11) parameters of
    a fact statement are both [nullable_int] of the row's RunTimeMinutes. *)
Lemma fact_stmt_runtime_fields `{PyConv} (r : clean_row) (st : stmt) :
  fact_stmt r = Some st ->
  nth 6 (st_row st) SNull = nth 11 (st_row st) SNull /\
  nullable_int (RunTimeMinutes (raw r)) = Some (nth 6 (st_row st) SNull).
Proof.
  unfold fact_stmt.
  destruct (py_int (FilmID (raw r))); simpl; [|discriminate].
  destruct (nullable_int (DirectorID (raw r))); simpl; [|discriminate].
  destruct (nullable_int (StudioID (raw r))); simpl; [|discriminate].
  destruct (nullable_int (GenreID (raw r))); simpl; [|discriminate].
  destruct (nullable_int (CountryID (raw r))); simpl; [|discriminate].
  destruct (nullable_int (LanguageID (raw r))); simpl; [|discriminate].
  destruct (nullable_int (RunTimeMinutes (raw r))) eqn:Ert; simpl; [|discriminate].
  destruct (count_or_zero (OscarNominations (raw r))); simpl; [|discriminate].
  destruct (count_or_zero (OscarWins (raw r))); simpl; [|discriminate].
  intros Heq. injection Heq as <-. simpl. split; reflexivity.
Qed.

(** Claim C10: every row that the load stage adds to the fact table comes
    from a batch row whose RunTimeMinutes gives both the TimeID field and
    the RunTimeMinutes field: they are equal, both NULL when RunTimeMinutes
    is missing and both its integer value otherwise; the parsed release
    date of the row plays no part in the fact statement. *)
Theorem fact_rows_time_id_is_runtime `{PyConv} `{Schema}
    (df : list clean_row) (s : store) (k : Z) (tu : tuple) :
  s FactFilmPerformance !! k = None ->
  run_load df s FactFilmPerformance !! k = Some tu ->
  exists r, In r df /\
    fact_stmt r = Some {| st_table := FactFilmPerformance; st_key := k; st_row := tu |} /\
    nth 6 tu SNull = nth 11 tu SNull /\
    (pd_isna (RunTimeMinutes (raw r)) = true -> nth 6 tu SNull = SNull) /\
    (pd_isna (RunTimeMinutes (raw r)) = false ->
       exists m, py_int (RunTimeMinutes (raw r)) = Some m /\ nth 6 tu SNull = SInt m) /\
    (forall d, fact_stmt (with_parsed_date d r) = fact_stmt r).
Proof.
  intros Hnone Hk.
  destruct (run_load_fact_rows df s k tu Hk) as [Hs | (r & Hr & Hst)];
    [congruence|].
  exists r. split; [exact Hr|]. split; [exact Hst|].
  destruct (fact_stmt_runtime_fields r _ Hst) as [Heq Hnull]; simpl in Heq, Hnull.
  split; [exact Heq|]. unfold nullable_int, pd_notna in Hnull.
  split; [|split].
  - intros Hna. rewrite Hna in Hnull. simpl in Hnull. congruence.
  - intros Hna. rewrite Hna in Hnull. simpl in Hnull.
    destruct (py_int (RunTimeMinutes (raw r))) as [m|]; simpl in Hnull; [|discriminate].
    exists m. split; [reflexivity | congruence].
  - intros d. reflexivity.
Qed.

Lemma fact_rows_time_id_is_runtime_witness :
  let df := @transform_data demo_conv rerun_batch in
  let tu := match @run_load demo_conv open_schema df empty_store FactFilmPerformance !! 0
            with Some tu => tu | None => [] end in
  exists r, In r df /\
    @fact_stmt demo_conv r = Some {| st_table := FactFilmPerformance; st_key := 0; st_row := tu |} /\
    nth 6 tu SNull = nth 11 tu SNull /\
    (pd_isna (RunTimeMinutes (raw r)) = true -> nth 6 tu SNull = SNull) /\
    (pd_isna (RunTimeMinutes (raw r)) = false ->
       exists m, @py_int demo_conv (RunTimeMinutes (raw r)) = Some m /\ nth 6 tu SNull = SInt m) /\
    (forall d, @fact_stmt demo_conv (with_parsed_date d r) = @fact_stmt demo_conv r).
Proof.
  intros df tu.
  apply (@fact_rows_time_id_is_runtime demo_conv open_schema df empty_store 0 tu).
  - reflexivity.
  - subst tu. vm_compute. reflexivity.
Defined.

(** ** Calendar fields *)

(** The day of the (March-based) year in [civil_from_days], from the day
    of the 400-year era. *)
Definition doy_of_doe (doe : Z) : Z :=
  let yoe := (doe - doe / 1460 + doe / 36524 - doe / 146096) / 365 in
  doe - (365 * yoe + yoe / 4 - yoe / 100).

(** ** Load reports *)

(** A statement that fails whatever the warehouse holds: its parameters
    cannot be built in Python, or the schema rejects its row. *)
Definition stmt_fails `{Schema} (o : option stmt) : bool :=
  match o with None => true | Some st => rejects (st_table st) (st_row st) end.

(** What a dimension loader that ran from the committed warehouse [s]
    into table [tb] over [rows_n] rows, [fails_n] of them failing, reports
    and leaves behind. *)
Definition dim_report `{Schema} (s : store) (tb : table) (res : conn * Z * Z)
    (rows_n fails_n : nat) : Prop :=
  let '(c, inserted, errors) := res in
  pending c = committed c /\
  (forall tb', tb' <> tb -> committed c tb' = s tb') /\
  Z.of_nat (size (committed c tb)) = Z.of_nat (size (s tb)) + inserted /\
  errors = Z.of_nat fails_n /\
  0 <= inserted /\ inserted + errors <= Z.of_nat rows_n.

(** Rows of tables other than the fact table are the same pending and
    committed. *)
Definition dims_synced (c : conn) : Prop :=
  forall tb, tb <> FactFilmPerformance -> pending c tb = committed c tb.

(** Two rows of film 5. *)
Definition film_dup_batch : list film_row :=
  [mk_row (PInt 5) (PInt 100) PNaN PNaN PNaN; mk_row (PInt 5) (PInt 110) PNaN PNaN PNaN].

Lemma doy_of_doe_range (doe : Z) :
  0 <= doe < 146097 -> 0 <= doy_of_doe doe <= 365.
Proof.
  intros Hd. unfold doy_of_doe.
  assert (Ha : exists k, (k < 101)%nat /\ doe / 1460 = Z.of_nat k).
  { exists (Z.to_nat (doe / 1460)).
    split; [|rewrite Z2Nat.id; [reflexivity | apply Z.div_pos; lia]].
    apply Nat2Z.inj_lt. rewrite Z2Nat.id by (apply Z.div_pos; lia).
    apply Z.div_lt_upper_bound; lia. }
  destruct Ha as [k [Hk Ha]]. rewrite Ha.
  pose proof (Z.div_mod doe 1460 ltac:(lia)) as Hm. rewrite Ha in Hm.
  pose proof (Z.mod_pos_bound doe 1460 ltac:(lia)).
  do 101 (destruct k as [|k]; [simpl Z.of_nat in *; Z.div_mod_to_equations; lia|]).
  lia.
Qed.

Lemma civil_from_days_month (days : Z) : 1 <= snd (civil_from_days days) <= 12.
Proof.
  unfold civil_from_days.
  set (z := days + 719468). set (era := z / 146097).
  assert (Hdoe : 0 <= z - era * 146097 < 146097)
    by (subst era; pose proof (Z.mod_pos_bound z 146097 ltac:(lia));
        rewrite Z.mod_eq in * by lia; lia).
  pose proof (doy_of_doe_range _ Hdoe) as Hdoy. unfold doy_of_doe in Hdoy.
  set (doe := z - era * 146097) in *.
  set (yoe := (doe - doe / 1460 + doe / 36524 - doe / 146096) / 365) in *.
  set (doy := doe - (365 * yoe + yoe / 4 - yoe / 100)) in *.
  assert (Hmp : 0 <= (5 * doy + 2) / 153 <= 11).
  { split; [apply Z.div_pos; lia|].
    apply Z.lt_succ_r, Z.div_lt_upper_bound; lia. }
  destruct ((5 * doy + 2) / 153 <? 10) eqn:E;
    [apply Z.ltb_lt in E | apply Z.ltb_ge in E];
    destruct (_ <=? 2); simpl; lia.
Qed.

Lemma month_name_in (m : Z) : 1 <= m <= 12 -> In (month_name m) month_names.
Proof.
  intros Hm. unfold month_name. apply nth_In. simpl. lia.
Qed.

Lemma extract_time_components_some (t : Z) :
  exists y m, civil_from_days (t / ns_per_day) = (y, m) /\ 1 <= m <= 12 /\
    extract_time_components (Some t) =
      (Some y, Some ((m - 1) / 3 + 1), Some m, Some (month_name m)).
Proof.
  pose proof (civil_from_days_month (t / ns_per_day)) as Hm.
  destruct (civil_from_days (t / ns_per_day)) as [y m] eqn:E.
  exists y, m. split; [reflexivity|]. split; [exact Hm|].
  unfold extract_time_components. rewrite E. reflexivity.
Qed.

(** X1: a parsed date gives a year, a month from 1 to 12, the quarter
    (month - 1) / 3 + 1 from 1 to 4 and the month's English name; a
    missing date gives four missing fields. *)
Theorem extract_time_components_calendar (t : Z) :
  extract_time_components None = (None, None, None, None) /\
  exists y m, civil_from_days (t / ns_per_day) = (y, m) /\
    extract_time_components (Some t) =
      (Some y, Some ((m - 1) / 3 + 1), Some m, Some (month_name m)) /\
    1 <= m <= 12 /\ 1 <= (m - 1) / 3 + 1 <= 4 /\ In (month_name m) month_names.
Proof.
  split; [reflexivity|].
  destruct (extract_time_components_some t) as (y & m & Hc & Hm & He).
  exists y, m. repeat split; try assumption; try (apply month_name_in; assumption).
  all: apply Z.div_le_lower_bound || apply Z.div_lt_upper_bound || idtac; try lia.
  all: Z.div_mod_to_equations; lia.
Qed.

Lemma transform_row_calendar `{PyConv} (r : film_row) (t : Z) :
  parse_excel_date (ReleaseDate r) = Some t ->
  exists y m, civil_from_days (t / ns_per_day) = (y, m) /\ 1 <= m <= 12 /\
    ReleaseDate_Parsed (transform_row r) = Some t /\
    Year (transform_row r) = Some y /\ Quarter (transform_row r) = Some ((m - 1) / 3 + 1) /\
    Month (transform_row r) = Some m /\ MonthName (transform_row r) = Some (month_name m).
Proof.
  intros Ht. destruct (extract_time_components_some t) as (y & m & Hc & Hm & He).
  exists y, m. split; [exact Hc|]. split; [exact Hm|].
  unfold transform_row. rewrite Ht, He. simpl. repeat split.
Qed.

(** X2: every row that the time loader adds to DimTime for a transformed
    batch is (int(RunTimeMinutes), parsed release date, year, quarter,
    month, month name) of a source row whose release date parsed; none of
    its calendar fields is NULL and the month is between 1 and 12. *)
Theorem time_dimension_calendar_rows `{PyConv} `{Schema} (df : list film_row) (s : store)
    (k : Z) (tu : tuple) :
  committed (fst (fst (load_dimension_time (transform_data df) (connect s)))) DimTime !! k = Some tu ->
  s DimTime !! k = None ->
  exists r t y m, In r df /\ py_int (RunTimeMinutes r) = Some k /\
    parse_excel_date (ReleaseDate r) = Some t /\
    civil_from_days (t / ns_per_day) = (y, m) /\ 1 <= m <= 12 /\
    tu = [SInt k; STs t; SInt y; SInt ((m - 1) / 3 + 1); SInt m; SText (month_name m)].
Proof.
  intros Hk Hnone.
  set (ok := fun st : stmt => exists r, In r (time_data (transform_data df)) /\ time_stmt r = Some st).
  assert (Hfrom : conn_from s ok (fst (fst (load_dimension_time (transform_data df) (connect s))))).
  { apply dim_loop_from; [intros r st Hr Hst; exists r; auto|].
    split; intros ? ? ? ?; left; assumption. }
  destruct (proj1 Hfrom DimTime k tu Hk) as [Hs | (rc & Hrc & Hst)]; [congruence|].
  unfold time_data, drop_duplicates in Hrc.
  apply dedup_aux_in, filter_In in Hrc as [Hrc Hd].
  unfold transform_data in Hrc. apply in_map_iff in Hrc as (r & <- & Hr).
  unfold has_date in Hd.
  destruct (ReleaseDate_Parsed (transform_row r)) as [t|] eqn:Ep; [|discriminate].
  destruct (transform_row_fields r) as (Hraw & Hpf & _).
  assert (Ht : parse_excel_date (ReleaseDate r) = Some t) by (rewrite <- Hpf; exact Ep).
  destruct (transform_row_calendar r t Ht) as (y & m & Hc & Hm & Hp & Hy & Hq & Hmo & Hn).
  exists r, t, y, m. split; [exact Hr|].
  unfold time_stmt in Hst.
  rewrite Hraw in Hst.
  destruct (py_int (RunTimeMinutes r)) as [k'|] eqn:Ek; [|discriminate].
  simpl in Hst. injection Hst as Hk' Htu. subst k'.
  split; [reflexivity|]. split; [exact Ht|]. split; [exact Hc|]. split; [exact Hm|].
  rewrite <- Htu, Hp, Hy, Hq, Hmo, Hn. reflexivity.
Qed.

Lemma time_dimension_calendar_rows_witness :
  let df := time_batch in
  let tu := match committed (fst (fst (@load_dimension_time demo_conv open_schema
                (@transform_data demo_conv df) (connect empty_store)))) DimTime !! 120
            with Some tu => tu | None => [] end in
  exists r t y m, In r df /\ @py_int demo_conv (RunTimeMinutes r) = Some 120 /\
    @parse_excel_date demo_conv (ReleaseDate r) = Some t /\
    civil_from_days (t / ns_per_day) = (y, m) /\ 1 <= m <= 12 /\
    tu = [SInt 120; STs t; SInt y; SInt ((m - 1) / 3 + 1); SInt m; SText (month_name m)].
Proof.
  intros df tu.
  apply (@time_dimension_calendar_rows demo_conv open_schema df empty_store 120 tu).
  - subst tu. vm_compute. reflexivity.
  - reflexivity.
Defined.

(** ** Dimension load reports *)

(** The three outcomes of a statement on a dimension table. *)
Lemma execute_dim_cases `{Schema} (s : store) (st : stmt) :
  st_table st <> FactFilmPerformance ->
  (rejects (st_table st) (st_row st) = true /\ execute s st = None) \/
  (rejects (st_table st) (st_row st) = false /\ is_Some (s (st_table st) !! st_key st) /\
   execute s st = Some (s, 0)) \/
  (rejects (st_table st) (st_row st) = false /\ s (st_table st) !! st_key st = None /\
   execute s st = Some (store_insert s (st_table st) (st_key st) (st_row st), 1)).
Proof.
  destruct st as [tb k tu]. simpl. intros Htb. unfold execute.
  destruct (rejects tb tu); [left; auto|right].
  destruct (s tb !! k) eqn:E.
  - left. split; [reflexivity|]. split; [eexists; reflexivity | reflexivity].
  - right. rewrite (fk_ok_dim s tb tu Htb). auto.
Qed.

Lemma store_insert_same (s : store) tb k tu : store_insert s tb k tu tb = <[k:=tu]> (s tb).
Proof. unfold store_insert. destruct (decide (tb = tb)); [reflexivity | congruence]. Qed.

Lemma store_insert_other (s : store) tb k tu tb' :
  tb' <> tb -> store_insert s tb k tu tb' = s tb'.
Proof. unfold store_insert. destruct (decide (tb = tb')); congruence. Qed.

Lemma conn_eta_synced (c : conn) :
  pending c = committed c -> {| committed := pending c; pending := pending c |} = c.
Proof. destruct c as [cm pd]. simpl. intros ->. reflexivity. Qed.

Lemma dim_loop_report `{Schema} {A} (stmt_of : A -> option stmt) (tb : table)
    (rows : list A) (c : conn) (i e : Z) :
  pending c = committed c -> tb <> FactFilmPerformance ->
  (forall r st, In r rows -> stmt_of r = Some st -> st_table st = tb) ->
  let '(c', i', e') := dim_loop stmt_of rows c i e in
  pending c' = committed c' /\
  (forall tb', tb' <> tb -> committed c' tb' = committed c tb') /\
  Z.of_nat (size (committed c' tb)) = Z.of_nat (size (committed c tb)) + (i' - i) /\
  e' = e + Z.of_nat (length (List.filter (fun r => stmt_fails (stmt_of r)) rows)) /\
  i <= i' /\ (i' - i) + (e' - e) <= Z.of_nat (length rows).
Proof.
  intros Hc Htb. revert c i e Hc.
  induction rows as [|r rows IH]; intros c i e Hc Hrows; simpl.
  - repeat split; try lia. exact Hc.
  - assert (Hrows' : forall r' st, In r' rows -> stmt_of r' = Some st -> st_table st = tb)
      by (intros; eapply Hrows; [right|]; eauto).
    assert (Hfail : run_stmt c (stmt_of r) = None -> stmt_fails (stmt_of r) = true ->
      let '(c', i', e') := dim_loop stmt_of rows (rollback c) i (e + 1) in
      pending c' = committed c' /\
      (forall tb', tb' <> tb -> committed c' tb' = committed c tb') /\
      Z.of_nat (size (committed c' tb)) = Z.of_nat (size (committed c tb)) + (i' - i) /\
      e' = e + Z.of_nat (length (if stmt_fails (stmt_of r)
                                 then r :: List.filter (fun r => stmt_fails (stmt_of r)) rows
                                 else List.filter (fun r => stmt_fails (stmt_of r)) rows)) /\
      i <= i' /\ (i' - i) + (e' - e) <= Z.of_nat (S (length rows))).
    { intros _ Hf. rewrite Hf. rewrite (rollback_synced c Hc).
      pose proof (IH c i (e + 1) Hc Hrows') as IHc.
      destruct (dim_loop stmt_of rows c i (e + 1)) as [[c' i'] e'].
      simpl length. rewrite !Nat2Z.inj_succ. intuition lia. }
    destruct (stmt_of r) as [st|] eqn:Est; [|apply Hfail; reflexivity].
    pose proof (Hrows r st (or_introl eq_refl) Est) as Hst.
    unfold run_stmt.
    destruct (execute_dim_cases (pending c) st ltac:(congruence))
      as [(Hrej & Hex) | [(Hrej & Hpres & Hex) | (Hrej & Habs & Hex)]].
    + rewrite Hex. apply Hfail; [unfold run_stmt; rewrite Hex; reflexivity | simpl; exact Hrej].
    + rewrite Hex. simpl stmt_fails. rewrite Hrej. unfold commit. simpl.
      rewrite (conn_eta_synced c Hc).
      pose proof (IH c (i + 0) e Hc Hrows') as IHc.
      destruct (dim_loop stmt_of rows c (i + 0) e) as [[c' i'] e'].
      simpl length. rewrite Nat2Z.inj_succ. intuition lia.
    + rewrite Hex. simpl stmt_fails. rewrite Hrej. unfold commit. simpl.
      set (c1 := {| committed := store_insert (pending c) (st_table st) (st_key st) (st_row st);
                    pending := store_insert (pending c) (st_table st) (st_key st) (st_row st) |}).
      pose proof (IH c1 (i + 1) e eq_refl Hrows') as IHc.
      destruct (dim_loop stmt_of rows c1 (i + 1) e) as [[c' i'] e'].
      destruct IHc as (Hs & Hother & Hsize & He & Hi & Hn).
      split; [exact Hs|]. split; [|split; [|split; [exact He|]]].
      * intros tb' Hne. rewrite Hother by exact Hne. simpl.
        rewrite store_insert_other by congruence. rewrite Hc. reflexivity.
      * rewrite Hsize. simpl. rewrite Hst, store_insert_same.
        rewrite map_size_insert_None by (rewrite <- Hst; exact Habs).
        rewrite Hc. lia.
      * simpl length. rewrite Nat2Z.inj_succ. lia.
Qed.

Lemma dim_loop_dim_report `{Schema} {A} (stmt_of : A -> option stmt) (tb : table)
    (rows : list A) (s : store) :
  tb <> FactFilmPerformance ->
  (forall r st, In r rows -> stmt_of r = Some st -> st_table st = tb) ->
  dim_report s tb (dim_loop stmt_of rows (connect s) 0 0) (length rows)
    (length (List.filter (fun r => stmt_fails (stmt_of r)) rows)).
Proof.
  intros Htb Hrows.
  pose proof (dim_loop_report stmt_of tb rows (connect s) 0 0 eq_refl Htb Hrows) as Hr.
  unfold dim_report. destruct (dim_loop stmt_of rows (connect s) 0 0) as [[c i] e].
  simpl in Hr. intuition lia.
Qed.

(** On a warehouse that already holds the key of every statement the
    schema accepts, a dimension loop changes nothing and only counts the
    failing rows. *)
Lemma dim_loop_rerun `{Schema} {A} (stmt_of : A -> option stmt) (rows : list A)
    (c : conn) (i e : Z) :
  pending c = committed c ->
  (forall r st, In r rows -> stmt_of r = Some st ->
     rejects (st_table st) (st_row st) = false ->
     is_Some (committed c (st_table st) !! st_key st)) ->
  dim_loop stmt_of rows c i e =
    (c, i, e + Z.of_nat (length (List.filter (fun r => stmt_fails (stmt_of r)) rows))).
Proof.
  intros Hc. revert i e. induction rows as [|r rows IH]; intros i e Hrows; simpl.
  - f_equal. lia.
  - assert (Hrows' : forall r' st, In r' rows -> stmt_of r' = Some st ->
              rejects (st_table st) (st_row st) = false ->
              is_Some (committed c (st_table st) !! st_key st))
      by (intros; eapply Hrows; [right|..]; eauto).
    destruct (stmt_of r) as [st|] eqn:Est; simpl.
    + destruct (rejects (st_table st) (st_row st)) eqn:Hrej.
      * assert (Hex : execute (pending c) st = None)
          by (destruct st as [tb k tu]; unfold execute; simpl in Hrej; rewrite Hrej; reflexivity).
        rewrite Hex, (rollback_synced c Hc), IH by exact Hrows'.
        simpl length. f_equal. lia.
      * destruct (Hrows r st (or_introl eq_refl) Est Hrej) as [tu0 Htu0].
        assert (Hex : execute (pending c) st = Some (pending c, 0)).
        { destruct st as [tb k tu]. unfold execute. simpl in Hrej, Htu0.
          rewrite Hrej, Hc, Htu0. reflexivity. }
        rewrite Hex. unfold commit. simpl. rewrite (conn_eta_synced c Hc), IH by exact Hrows'.
        f_equal. f_equal. lia.
    + rewrite (rollback_synced c Hc), IH by exact Hrows'.
      simpl length. f_equal. lia.
Qed.

Lemma dim_loop_idempotent `{Schema} {A} (stmt_of : A -> option stmt) (tb : table)
    (rows : list A) (s : store) :
  tb <> FactFilmPerformance ->
  (forall r st, In r rows -> stmt_of r = Some st -> st_table st = tb) ->
  let '(c1, _, e1) := dim_loop stmt_of rows (connect s) 0 0 in
  connect (committed c1) = c1 /\ dim_loop stmt_of rows c1 0 0 = (c1, 0, e1).
Proof.
  intros Htb Hrows.
  pose proof (dim_loop_dim_report stmt_of tb rows s Htb Hrows) as Hrep.
  assert (Hpres : forall r st, In r rows -> stmt_of r = Some st ->
            rejects (st_table st) (st_row st) = false ->
            is_Some (committed (fst (fst (dim_loop stmt_of rows (connect s) 0 0)))
                       (st_table st) !! st_key st)).
  { intros r st Hr Hst Hrej.
    apply (dim_loop_present stmt_of rows (connect s) 0 0 r st eq_refl Hr Hst Hrej).
    intros s'. apply fk_ok_dim. rewrite (Hrows r st Hr Hst). exact Htb. }
  unfold dim_report in Hrep.
  destruct (dim_loop stmt_of rows (connect s) 0 0) as [[c1 i1] e1].
  destruct Hrep as (Hs & _ & _ & He & _). simpl in Hpres.
  split.
  - destruct c1 as [cm pd]. simpl in Hs |- *. rewrite Hs. reflexivity.
  - rewrite (dim_loop_rerun stmt_of rows c1 0 0 Hs Hpres), He. reflexivity.
Qed.

(** X3: the time and film loaders, run on a fresh connection to the
    warehouse [s], leave everything committed and change only their own
    table; the inserted count they report is the number of rows their
    table gained; the error count is the number of rows whose statement
    cannot be built or is rejected by the schema, whatever the warehouse
    holds; inserted plus errors is at most the number of rows iterated. *)
Theorem dimension_loads_report `{PyConv} `{Schema} (df : list clean_row) (s : store) :
  dim_report s DimTime (load_dimension_time df (connect s)) (length (time_data df))
    (length (List.filter (fun r => stmt_fails (time_stmt r)) (time_data df))) /\
  dim_report s DimFilm (load_dimension_film df (connect s)) (length df)
    (length (List.filter (fun r => stmt_fails (film_stmt r)) df)).
Proof.
  split.
  - apply dim_loop_dim_report; [discriminate|]. intros r st _. apply time_stmt_some.
  - apply dim_loop_dim_report; [discriminate|]. intros r st _. apply film_stmt_some.
Qed.

(** X4: the same report for the generic loader of a dimension table: it
    changes only that table, its inserted count is the number of rows the
    table gained, and its error count is the number of distinct id values
    whose int() raises or whose row the schema rejects. *)
Theorem generic_load_report `{PyConv} `{Schema} (df : list clean_row) (s : store)
    (dim_table : table) (id_col : film_row -> pyval) (display_name : string) :
  dim_table <> FactFilmPerformance ->
  dim_report s dim_table (load_dimension_generic df (connect s) dim_table id_col display_name)
    (length (unique_values id_col df))
    (length (List.filter (fun v => stmt_fails (generic_stmt dim_table display_name v))
                         (unique_values id_col df))).
Proof.
  intros Hdim. apply dim_loop_dim_report; [exact Hdim|].
  intros v st _ Hst. apply generic_stmt_some in Hst as (k & _ & ->). reflexivity.
Qed.

Lemma generic_load_report_witness :
  @dim_report open_schema empty_store DimDirector
    (@load_dimension_generic demo_conv open_schema (@transform_data demo_conv director_batch)
       (connect empty_store) DimDirector DirectorID "Director")
    1 0.
Proof.
  exact (@generic_load_report demo_conv open_schema (@transform_data demo_conv director_batch)
           empty_store DimDirector DirectorID "Director" ltac:(discriminate)).
Defined.

(** X5: the time and film loaders are idempotent: after one run, a
    second run on a fresh connection with the same batch inserts nothing,
    reports the same number of errors and leaves the warehouse as it is. *)
Theorem dimension_loads_idempotent `{PyConv} `{Schema} (df : list clean_row) (s : store) :
  (let '(c1, _, e1) := load_dimension_time df (connect s) in
   load_dimension_time df (connect (committed c1)) = (c1, 0, e1)) /\
  (let '(c1, _, e1) := load_dimension_film df (connect s) in
   load_dimension_film df (connect (committed c1)) = (c1, 0, e1)).
Proof.
  split.
  - pose proof (dim_loop_idempotent time_stmt DimTime (time_data df) s ltac:(discriminate)
                  (fun r st _ => time_stmt_some r st)) as Hi.
    unfold load_dimension_time.
    destruct (dim_loop time_stmt (time_data df) (connect s) 0 0) as [[c1 i1] e1].
    destruct Hi as [-> Hi]. exact Hi.
  - pose proof (dim_loop_idempotent film_stmt DimFilm df s ltac:(discriminate)
                  (fun r st _ => film_stmt_some r st)) as Hi.
    unfold load_dimension_film.
    destruct (dim_loop film_stmt df (connect s) 0 0) as [[c1 i1] e1].
    destruct Hi as [-> Hi]. exact Hi.
Qed.

(** X6: the generic loader of a dimension table is idempotent in the
    same way. *)
Theorem generic_load_idempotent `{PyConv} `{Schema} (df : list clean_row) (s : store)
    (dim_table : table) (id_col : film_row -> pyval) (display_name : string) :
  dim_table <> FactFilmPerformance ->
  let '(c1, _, e1) := load_dimension_generic df (connect s) dim_table id_col display_name in
  load_dimension_generic df (connect (committed c1)) dim_table id_col display_name = (c1, 0, e1).
Proof.
  intros Hdim.
  pose proof (dim_loop_idempotent (generic_stmt dim_table display_name) dim_table
                (unique_values id_col df) s Hdim) as Hi.
  unfold load_dimension_generic.
  destruct (dim_loop (generic_stmt dim_table display_name) (unique_values id_col df)
              (connect s) 0 0) as [[c1 i1] e1].
  destruct Hi as [-> Hi]; [|exact Hi].
  intros v st _ Hst. apply generic_stmt_some in Hst as (k & _ & ->). reflexivity.
Qed.

Lemma generic_load_idempotent_witness :
  let df := @transform_data demo_conv director_batch in
  let '(c1, _, e1) := @load_dimension_generic demo_conv open_schema df (connect empty_store)
                        DimDirector DirectorID "Director" in
  @load_dimension_generic demo_conv open_schema df (connect (committed c1))
    DimDirector DirectorID "Director" = (c1, 0, e1).
Proof.
  exact (@generic_load_idempotent demo_conv open_schema (@transform_data demo_conv director_batch)
           empty_store DimDirector DirectorID "Director" ltac:(discriminate)).
Defined.

(** ** Fact load *)

Lemma execute_some_cases `{Schema} (s s' : store) (st : stmt) (n : Z) :
  execute s st = Some (s', n) ->
  (n = 0 /\ s' = s) \/
  (n = 1 /\ s (st_table st) !! st_key st = None /\
   s' = store_insert s (st_table st) (st_key st) (st_row st)).
Proof.
  destruct st as [tb k tu]. unfold execute. simpl.
  destruct (rejects tb tu); [discriminate|].
  destruct (s tb !! k) eqn:E.
  - intros Heq. injection Heq as <- <-. left. auto.
  - destruct (fk_ok s tb tu); [|discriminate].
    intros Heq. injection Heq as <- <-. right. auto.
Qed.

Lemma fact_loop_shift `{Schema} {A} (stmt_of : A -> option stmt) (rows : list A) c i e :
  fact_loop stmt_of rows c i e =
  let '(c', i', e') := fact_loop stmt_of rows c 0 0 in (c', i + i', e + e').
Proof.
  revert c i e. induction rows as [|r rows IH]; intros c i e; simpl.
  - repeat (apply pair_equal_spec; split); try reflexivity; lia.
  - destruct (run_stmt c (stmt_of r)) as [[c1 n]|].
    + rewrite (IH c1 (i + n) e), (IH c1 (0 + n) 0).
      destruct (fact_loop stmt_of rows c1 0 0) as [[c' i'] e']. repeat (apply pair_equal_spec; split); try reflexivity; lia.
    + rewrite (IH _ i (e + 1)), (IH _ 0 (0 + 1)).
      destruct (fact_loop stmt_of rows (rollback c) 0 0) as [[c' i'] e']. repeat (apply pair_equal_spec; split); try reflexivity; lia.
Qed.

Lemma fact_loop_report `{Schema} {A} (stmt_of : A -> option stmt) (rows : list A)
    (c : conn) (i e : Z) :
  dims_synced c ->
  (forall r st, In r rows -> stmt_of r = Some st -> st_table st = FactFilmPerformance) ->
  let '(c', i', e') := fact_loop stmt_of rows c i e in
  committed c' = committed c /\ dims_synced c' /\ e <= e' /\ i <= i' /\
  (e' = e -> Z.of_nat (size (pending c' FactFilmPerformance)) =
             Z.of_nat (size (pending c FactFilmPerformance)) + (i' - i)).
Proof.
  revert c i e. induction rows as [|r rows IH]; intros c i e Hc Hrows; simpl.
  - repeat split; try lia. exact Hc.
  - assert (Hrows' : forall r' st, In r' rows -> stmt_of r' = Some st ->
              st_table st = FactFilmPerformance)
      by (intros; eapply Hrows; [right|]; eauto).
    destruct (run_stmt c (stmt_of r)) as [[c1 n]|] eqn:E.
    + apply run_stmt_some in E as (st & Hst & Hcom & Hex).
      pose proof (Hrows r st (or_introl eq_refl) Hst) as Htb.
      assert (Hc1 : dims_synced c1 /\ 0 <= n /\
                    Z.of_nat (size (pending c1 FactFilmPerformance)) =
                    Z.of_nat (size (pending c FactFilmPerformance)) + n).
      { destruct (execute_some_cases _ _ _ _ Hex) as [(-> & Hs) | (-> & Habs & Hs)].
        - split; [|split; [lia|]].
          + intros tb Hne. rewrite Hs, Hcom. exact (Hc tb Hne).
          + rewrite Hs. lia.
        - split; [|split; [lia|]].
          + intros tb Hne. rewrite Hs, Hcom, store_insert_other by congruence. exact (Hc tb Hne).
          + rewrite Hs, Htb, store_insert_same, map_size_insert_None
              by (rewrite <- Htb; exact Habs). lia. }
      destruct Hc1 as (Hc1 & Hn & Hsize).
      pose proof (IH c1 (i + n) e Hc1 Hrows') as IHc.
      destruct (fact_loop stmt_of rows c1 (i + n) e) as [[c' i'] e'].
      destruct IHc as (Hcom' & Hs' & He & Hi & Hsz).
      split; [congruence|]. split; [exact Hs'|]. split; [lia|]. split; [lia|].
      intros Hee. rewrite (Hsz Hee). lia.
    + assert (Hr : dims_synced (rollback c)) by (intros tb _; reflexivity).
      pose proof (IH (rollback c) i (e + 1) Hr Hrows') as IHc.
      destruct (fact_loop stmt_of rows (rollback c) i (e + 1)) as [[c' i'] e'].
      destruct IHc as (Hcom' & Hs' & He & Hi & _).
      split; [exact Hcom'|]. split; [exact Hs'|]. split; [lia|]. split; [lia|].
      intros Hee. lia.
Qed.

Lemma fact_stmt_some `{PyConv} (r : clean_row) (st : stmt) :
  fact_stmt r = Some st -> st_table st = FactFilmPerformance.
Proof.
  unfold fact_stmt.
  destruct (py_int (FilmID (raw r))); simpl; [|discriminate].
  destruct (nullable_int (DirectorID (raw r))); simpl; [|discriminate].
  destruct (nullable_int (StudioID (raw r))); simpl; [|discriminate].
  destruct (nullable_int (GenreID (raw r))); simpl; [|discriminate].
  destruct (nullable_int (CountryID (raw r))); simpl; [|discriminate].
  destruct (nullable_int (LanguageID (raw r))); simpl; [|discriminate].
  destruct (nullable_int (RunTimeMinutes (raw r))); simpl; [|discriminate].
  destruct (count_or_zero (OscarNominations (raw r))); simpl; [|discriminate].
  destruct (count_or_zero (OscarWins (raw r))); simpl; [|discriminate].
  intros Heq. injection Heq as <-. reflexivity.
Qed.

(** X7: the fact loader, run on a fresh connection to the warehouse [s],
    ends with everything committed and changes no dimension table; when
    no row failed, the inserted count it reports is the number of rows
    the fact table gained. *)
Theorem fact_load_report `{PyConv} `{Schema} (df : list clean_row) (s : store)
    (c : conn) (inserted errors : Z) :
  load_fact_table df (connect s) = (c, inserted, errors) ->
  pending c = committed c /\
  (forall tb, tb <> FactFilmPerformance -> committed c tb = s tb) /\
  0 <= inserted /\ 0 <= errors /\
  (errors = 0 ->
   Z.of_nat (size (committed c FactFilmPerformance)) =
   Z.of_nat (size (s FactFilmPerformance)) + inserted).
Proof.
  unfold load_fact_table. intros Hl.
  pose proof (fact_loop_report fact_stmt df (connect s) 0 0 (fun _ _ => eq_refl)
                (fun r st _ => fact_stmt_some r st)) as Hr.
  destruct (fact_loop fact_stmt df (connect s) 0 0) as [[c' i'] e'].
  injection Hl as <- <- <-. destruct Hr as (Hcom & Hsync & He & Hi & Hsize).
  simpl. split; [reflexivity|]. split; [|split; [lia|split; [lia|]]].
  - intros tb Hne. rewrite (Hsync tb Hne), Hcom. reflexivity.
  - intros He0. rewrite (Hsize ltac:(lia)). simpl. lia.
Qed.

Lemma fact_load_report_witness :
  let df := @transform_data demo_conv [mk_row (PInt 1) (PInt 120) (PTimestamp date_a)
                                              (PInt 1000000) (PInt 3000000)] in
  let res := @load_fact_table demo_conv open_schema df (connect empty_store) in
  pending (fst (fst res)) = committed (fst (fst res)) /\
  (forall tb, tb <> FactFilmPerformance -> committed (fst (fst res)) tb = empty_store tb) /\
  0 <= snd (fst res) /\ 0 <= snd res /\
  (snd res = 0 ->
   Z.of_nat (size (committed (fst (fst res)) FactFilmPerformance)) =
   Z.of_nat (size (empty_store FactFilmPerformance)) + snd (fst res)).
Proof.
  intros df res.
  apply (@fact_load_report demo_conv open_schema df empty_store).
  subst res. vm_compute. reflexivity.
Defined.

(** X8: a fact row whose statement fails undoes every fact row before
    it: the committed warehouse is the one that loading only the rows
    after it would give, and the counts add up as the two parts. *)
Theorem fact_load_failure_resets `{PyConv} `{Schema} (l1 l2 : list clean_row) (r : clean_row)
    (s : store) (c1 : conn) (i1 e1 : Z) :
  fact_loop fact_stmt l1 (connect s) 0 0 = (c1, i1, e1) ->
  run_stmt c1 (fact_stmt r) = None ->
  let '(c, i, e) := load_fact_table (l1 ++ r :: l2) (connect s) in
  let '(c2, i2, e2) := load_fact_table l2 (connect s) in
  committed c = committed c2 /\ i = i1 + i2 /\ e = e1 + 1 + e2.
Proof.
  intros Hl1 Hr. unfold load_fact_table.
  rewrite fact_loop_app, Hl1. simpl. rewrite Hr.
  assert (Hrb : rollback c1 = connect s).
  { pose proof (fact_loop_committed fact_stmt l1 (connect s) 0 0) as Hc.
    rewrite Hl1 in Hc. simpl in Hc. unfold rollback, connect. rewrite Hc. reflexivity. }
  rewrite Hrb, fact_loop_shift.
  destruct (fact_loop fact_stmt l2 (connect s) 0 0) as [[c2 i2] e2].
  simpl. split; [reflexivity | lia].
Qed.

Lemma fact_load_failure_resets_witness :
  let df := @transform_data demo_conv fact_batch in
  let l1 := firstn 1 df in
  let r := nth 1 df (@transform_row demo_conv (mk_row PNaN PNaN PNaN PNaN PNaN)) in
  let res1 := @fact_loop open_schema _ (@fact_stmt demo_conv) l1 (connect empty_store) 0 0 in
  let '(c, i, e) := @load_fact_table demo_conv open_schema (l1 ++ [r]) (connect empty_store) in
  let '(c2, i2, e2) := @load_fact_table demo_conv open_schema [] (connect empty_store) in
  committed c = committed c2 /\ i = snd (fst res1) + i2 /\ e = snd res1 + 1 + e2.
Proof.
  intros df l1 r res1.
  apply (@fact_load_failure_resets demo_conv open_schema l1 [] r empty_store
           (fst (fst res1)) (snd (fst res1)) (snd res1)).
  - subst res1. vm_compute. reflexivity.
  - vm_compute. reflexivity.
Defined.

(** ** The load stage *)

Lemma fact_loop_pending_extends `{Schema} {A} (stmt_of : A -> option stmt) (rows : list A)
    (c : conn) (i e : Z) :
  extends (committed c) (pending c) ->
  extends (committed c) (pending (fst (fst (fact_loop stmt_of rows c i e)))).
Proof.
  revert c i e. induction rows as [|r rows IH]; intros c i e Hc; simpl; [exact Hc|].
  destruct (run_stmt c (stmt_of r)) as [[c1 n]|] eqn:E.
  - apply run_stmt_some in E as (st & _ & Hcom & Hex).
    rewrite <- Hcom. apply IH. rewrite Hcom.
    intros tb k tu Hk. exact (execute_extends _ _ _ _ Hex tb k tu (Hc tb k tu Hk)).
  - change (committed c) with (committed (rollback c)). apply IH. intros tb k tu Hk. exact Hk.
Qed.

Ltac thread_synced s :=
  match goal with
  | Hc : pending ?c = committed ?c /\ extends s (committed ?c)
    |- context [dim_loop ?f ?l ?c 0 0] =>
      let H' := fresh "Hc" in
      let c' := fresh "c" in
      assert (H' : pending (fst (fst (dim_loop f l c 0 0))) =
                   committed (fst (fst (dim_loop f l c 0 0))) /\
                   extends s (committed (fst (fst (dim_loop f l c 0 0)))))
        by (destruct (dim_loop_sync f l c 0 0 (proj1 Hc)) as [Hs He];
            split; [exact Hs | intros ? ? ? ?; apply He; apply (proj2 Hc); assumption]);
      destruct (dim_loop f l c 0 0) as [[c' ?] ?]; cbn [fst] in H';
      clear Hc
  end.

(** X9: the load stage only adds rows: every row of the warehouse before
    a run is still there, unchanged, after it; on an empty batch the run
    leaves the warehouse as it was. *)
Theorem run_load_append_only `{PyConv} `{Schema} (df : list clean_row) (s : store) :
  (forall tb k tu, s tb !! k = Some tu -> run_load df s tb !! k = Some tu) /\
  run_load [] s = s.
Proof.
  split; [|reflexivity].
  assert (Hstart : pending (connect s) = committed (connect s) /\ extends s (committed (connect s)))
    by (split; [reflexivity | intros ? ? ? ?; assumption]).
  unfold run_load, load_all, load_dimension_time, load_dimension_film,
    load_dimension_generic, load_fact_table.
  repeat thread_synced s.
  match goal with
  | Hc : pending ?c = committed ?c /\ extends s (committed ?c)
    |- context [fact_loop fact_stmt df ?c 0 0] =>
      assert (Hf : extends s (pending (fst (fst (fact_loop fact_stmt df c 0 0)))))
        by (intros tb k tu Hk;
            apply (fact_loop_pending_extends fact_stmt df c 0 0);
            [rewrite (proj1 Hc); intros ? ? ? ?; assumption | apply (proj2 Hc); exact Hk]);
      destruct (fact_loop fact_stmt df c 0 0) as [[cf ?] ?]
  end.
  simpl in *. exact Hf.
Qed.

(** ** Film dimension rows *)

Lemma substring_0_length (n : nat) (s : string) : (String.length (substring 0 n s) <= n)%nat.
Proof.
  revert n. induction s as [|a s IH]; intros n; destruct n as [|n]; simpl; try lia.
  specialize (IH n). lia.
Qed.

(** X10: every row that the film loader adds to DimFilm comes from a
    batch row with that FilmID: its title is the first 200 characters of
    str(Title); its certificate is str(int(CertificateID)) when that cell
    is present, else str(int(Certificate)) when that one is, else NULL;
    its review is NULL when the Review cell is missing and otherwise the
    first 500 characters of str(Review). *)
Theorem film_dimension_rows `{PyConv} `{Schema} (df : list clean_row) (s : store)
    (k : Z) (tu : tuple) :
  committed (fst (fst (load_dimension_film df (connect s)))) DimFilm !! k = Some tu ->
  s DimFilm !! k = None ->
  exists r title cert review, In r df /\ py_int (FilmID (raw r)) = Some k /\
    tu = [SInt k; SText title; cert; review] /\
    title = substring 0 200 (py_str (Title (raw r))) /\ (String.length title <= 200)%nat /\
    (pd_notna (CertificateID (raw r)) = true ->
       exists z, py_int (CertificateID (raw r)) = Some z /\ cert = SText (pretty z)) /\
    (pd_notna (CertificateID (raw r)) = false -> pd_notna (Certificate (raw r)) = true ->
       exists z, py_int (Certificate (raw r)) = Some z /\ cert = SText (pretty z)) /\
    (pd_notna (CertificateID (raw r)) = false -> pd_notna (Certificate (raw r)) = false ->
       cert = SNull) /\
    (pd_isna (Review (raw r)) = true -> review = SNull) /\
    (pd_isna (Review (raw r)) = false ->
       exists txt, review = SText txt /\ txt = substring 0 500 (py_str (Review (raw r))) /\
                   (String.length txt <= 500)%nat).
Proof.
  intros Hk Hnone.
  set (ok := fun st : stmt => exists r, In r df /\ film_stmt r = Some st).
  assert (Hfrom : conn_from s ok (fst (fst (load_dimension_film df (connect s))))).
  { apply dim_loop_from; [intros r st Hr Hst; exists r; auto|].
    split; intros ? ? ? ?; left; assumption. }
  destruct (proj1 Hfrom DimFilm k tu Hk) as [Hs | (r & Hr & Hst)]; [congruence|].
  unfold film_stmt in Hst.
  destruct (cert_value (raw r)) as [cert|] eqn:Ec; simpl in Hst; [|discriminate].
  destruct (py_int (FilmID (raw r))) as [k'|] eqn:Ek; simpl in Hst; [|discriminate].
  injection Hst as <- Htu.
  exists r, (substring 0 200 (py_str (Title (raw r)))), cert, (review_value (raw r)).
  split; [exact Hr|]. split; [exact Ek|]. split; [symmetry; exact Htu|].
  split; [reflexivity|]. split; [apply substring_0_length|].
  unfold cert_value in Ec. unfold review_value.
  split; [|split; [|split; [|split]]].
  - intros Hn. rewrite Hn in Ec.
    destruct (py_int (CertificateID (raw r))) as [z|]; simpl in Ec; [|discriminate].
    injection Ec as <-. exists z. auto.
  - intros Hn1 Hn2. rewrite Hn1, Hn2 in Ec.
    destruct (py_int (Certificate (raw r))) as [z|]; simpl in Ec; [|discriminate].
    injection Ec as <-. exists z. auto.
  - intros Hn1 Hn2. rewrite Hn1, Hn2 in Ec. injection Ec as <-. reflexivity.
  - intros Hna. unfold pd_notna. rewrite Hna. reflexivity.
  - intros Hna. unfold pd_notna. rewrite Hna. simpl. eexists. split; [reflexivity|].
    split; [reflexivity | apply substring_0_length].
Qed.

Lemma film_dimension_rows_witness :
  let df := @transform_data demo_conv rerun_batch in
  let tu := match committed (fst (fst (@load_dimension_film demo_conv open_schema df
                (connect empty_store)))) DimFilm !! 0 with Some tu => tu | None => [] end in
  exists r title cert review, In r df /\ @py_int demo_conv (FilmID (raw r)) = Some 0 /\
    tu = [SInt 0; SText title; cert; review] /\
    title = substring 0 200 (@py_str demo_conv (Title (raw r))) /\ (String.length title <= 200)%nat /\
    (pd_notna (CertificateID (raw r)) = true ->
       exists z, @py_int demo_conv (CertificateID (raw r)) = Some z /\ cert = SText (pretty z)) /\
    (pd_notna (CertificateID (raw r)) = false -> pd_notna (Certificate (raw r)) = true ->
       exists z, @py_int demo_conv (Certificate (raw r)) = Some z /\ cert = SText (pretty z)) /\
    (pd_notna (CertificateID (raw r)) = false -> pd_notna (Certificate (raw r)) = false ->
       cert = SNull) /\
    (pd_isna (Review (raw r)) = true -> review = SNull) /\
    (pd_isna (Review (raw r)) = false ->
       exists txt, review = SText txt /\ txt = substring 0 500 (@py_str demo_conv (Review (raw r))) /\
                   (String.length txt <= 500)%nat).
Proof.
  intros df tu.
  apply (@film_dimension_rows demo_conv open_schema df empty_store 0 tu).
  - subst tu. vm_compute. reflexivity.
  - reflexivity.
Defined.

(** The row a dimension loop stores for a new key is that of the first
    accepted statement for the key. *)
Lemma dim_loop_first_accepted `{Schema} {A} (stmt_of : A -> option stmt) (tb : table)
    (rows : list A) (c : conn) (i e : Z) (k : Z) (tu : tuple) :
  pending c = committed c -> tb <> FactFilmPerformance ->
  (forall r st, In r rows -> stmt_of r = Some st -> st_table st = tb) ->
  committed (fst (fst (dim_loop stmt_of rows c i e))) tb !! k = Some tu ->
  committed c tb !! k = None ->
  exists l1 r l2, rows = l1 ++ r :: l2 /\
    stmt_of r = Some {| st_table := tb; st_key := k; st_row := tu |} /\
    rejects tb tu = false /\
    (forall r' st', In r' l1 -> stmt_of r' = Some st' -> st_key st' = k ->
       rejects tb (st_row st') = true).
Proof.
  intros Hc Htb. revert c i e Hc.
  induction rows as [|r rows IH]; intros c i e Hc Hrows Hk Hnone; simpl in Hk; [congruence|].
  assert (Hrows' : forall r' st, In r' rows -> stmt_of r' = Some st -> st_table st = tb)
    by (intros; eapply Hrows; [right|]; eauto).
  assert (Hskip : forall c' i' e', committed c' tb !! k = None -> pending c' = committed c' ->
            committed (fst (fst (dim_loop stmt_of rows c' i' e'))) tb !! k = Some tu ->
            (forall st', stmt_of r = Some st' -> st_key st' = k -> rejects tb (st_row st') = true) ->
            exists l1 r0 l2, r :: rows = l1 ++ r0 :: l2 /\
              stmt_of r0 = Some {| st_table := tb; st_key := k; st_row := tu |} /\
              rejects tb tu = false /\
              (forall r' st', In r' l1 -> stmt_of r' = Some st' -> st_key st' = k ->
                 rejects tb (st_row st') = true)).
  { intros c' i' e' Hn Hs Hk' Hr.
    destruct (IH c' i' e' Hs Hrows' Hk' Hn) as (l1 & r0 & l2 & -> & Hst & Hrej & Hl1).
    exists (r :: l1), r0, l2. split; [reflexivity|]. split; [exact Hst|]. split; [exact Hrej|].
    intros r' st' [<- | Hin]; [apply Hr | apply Hl1; exact Hin]. }
  destruct (stmt_of r) as [st|] eqn:Est.
  2: { apply (Hskip (rollback c) i (e + 1)); try exact Hnone; try reflexivity; [exact Hk|].
       intros st' Hst'. discriminate. }
  pose proof (Hrows r st (or_introl eq_refl) Est) as Hst.
  unfold run_stmt in Hk.
  destruct (execute_dim_cases (pending c) st ltac:(congruence))
    as [(Hrej & Hex) | [(Hrej & Hpres & Hex) | (Hrej & Habs & Hex)]];
    rewrite Hex in Hk.
  - apply (Hskip (rollback c) i (e + 1)); try exact Hnone; try reflexivity; [exact Hk|].
    intros st' Hst' _. injection Hst' as <-. rewrite <- Hst. exact Hrej.
  - unfold commit in Hk. simpl in Hk. rewrite (conn_eta_synced c Hc) in Hk.
    apply (Hskip c (i + 0) e Hnone Hc Hk).
    intros st' Hst' Hkey. injection Hst' as <-.
    rewrite Hst, Hc, Hkey in Hpres. rewrite Hnone in Hpres. destruct Hpres; discriminate.
  - unfold commit in Hk. simpl in Hk.
    set (c1 := {| committed := store_insert (pending c) (st_table st) (st_key st) (st_row st);
                  pending := store_insert (pending c) (st_table st) (st_key st) (st_row st) |}) in Hk.
    destruct (Z.eq_dec (st_key st) k) as [Hkey | Hkey].
    + destruct (dim_loop_sync stmt_of rows c1 (i + 1) e eq_refl) as [_ Hext].
      assert (Hin : committed c1 tb !! k = Some (st_row st)).
      { simpl. rewrite store_insert_lookup, Hst.
        destruct (decide (tb = tb /\ st_key st = k)); [reflexivity | tauto]. }
      pose proof (Hext tb k _ Hin) as Hfin. rewrite Hk in Hfin. injection Hfin as ->.
      exists [], r, rows. split; [reflexivity|].
      split; [rewrite Est; destruct st as [tb' k' tu']; simpl in *; subst; reflexivity|].
      split; [rewrite <- Hst; exact Hrej|]. intros r' st' [].
    + apply (Hskip c1 (i + 1) e); [| reflexivity | exact Hk |].
      * simpl. rewrite store_insert_lookup.
        destruct (decide (st_table st = tb /\ st_key st = k)) as [[_ E]|]; [congruence|].
        rewrite Hc. exact Hnone.
      * intros st' Hst' Hk'. injection Hst' as <-. congruence.
Qed.

(** X11: when the film loader adds a row for FilmID k to DimFilm, it is
    the row built from the first batch row with FilmID k whose statement
    the schema accepts; every earlier batch row whose statement has key k
    was rejected (ON CONFLICT DO NOTHING keeps the first accepted row). *)
Theorem film_dimension_first_row_wins `{PyConv} `{Schema} (df : list clean_row) (s : store)
    (k : Z) (tu : tuple) :
  committed (fst (fst (load_dimension_film df (connect s)))) DimFilm !! k = Some tu ->
  s DimFilm !! k = None ->
  exists l1 r l2, df = l1 ++ r :: l2 /\
    film_stmt r = Some {| st_table := DimFilm; st_key := k; st_row := tu |} /\
    rejects DimFilm tu = false /\
    (forall r' st', In r' l1 -> film_stmt r' = Some st' -> st_key st' = k ->
       rejects DimFilm (st_row st') = true).
Proof.
  intros Hk Hnone.
  exact (dim_loop_first_accepted film_stmt DimFilm df (connect s) 0 0 k tu eq_refl
           ltac:(discriminate) (fun r st _ => film_stmt_some r st) Hk Hnone).
Qed.

Lemma film_dimension_first_row_wins_witness :
  let df := @transform_data demo_conv film_dup_batch in
  let tu := match committed (fst (fst (@load_dimension_film demo_conv open_schema df
                (connect empty_store)))) DimFilm !! 5 with Some tu => tu | None => [] end in
  exists l1 r l2, df = l1 ++ r :: l2 /\
    @film_stmt demo_conv r = Some {| st_table := DimFilm; st_key := 5; st_row := tu |} /\
    rejects (Schema := open_schema) DimFilm tu = false /\
    (forall r' st', In r' l1 -> @film_stmt demo_conv r' = Some st' -> st_key st' = 5 ->
       rejects (Schema := open_schema) DimFilm (st_row st') = true).
Proof.
  intros df tu.
  apply (@film_dimension_first_row_wins demo_conv open_schema df empty_store 5 tu).
  - subst tu. vm_compute. reflexivity.
  - reflexivity.
Defined.

(** ** Generic dimension names *)

Lemma string_app_cancel_l (d x y : string) : (d ++ x)%string = (d ++ y)%string -> x = y.
Proof. induction d as [|a d IH]; simpl; [auto|]. intros Heq. injection Heq. exact IH. Qed.

(** X12: the placeholder names of one dimension are distinct for
    distinct ids: "<Label>_k1" and "<Label>_k2" are equal exactly when
    k1 = k2, so two generic rows never share a name. *)
Theorem placeholder_name_injective (display_name : string) (k1 k2 : Z) :
  placeholder_name display_name k1 = placeholder_name display_name k2 <-> k1 = k2.
Proof.
  split; [|intros ->; reflexivity].
  unfold placeholder_name. intros Heq.
  apply string_app_cancel_l in Heq. simpl in Heq. injection Heq as Heq.
  exact (inj pretty _ _ Heq).
Qed.

(** ** Fact rows of a transformed batch *)


